(** * Bitget multi-account trader: a shallow embedding of [src/main.py]

  The development follows the Python source.  Python [float]s are IEEE-754
  binary64 values and are modelled by Rocq's primitive [float]s (the same
  format, with the kernel's operations); text is modelled by ASCII
  [string]s; the exchange library [pybitget.Client], the clock and the
  console are the environment, threaded through an explicit state.
  Console output ([rprint], the progress bar) only displays values and is
  left out, except for the batch summary. *)

From Stdlib Require Import ZArith Lia Bool List String Ascii Floats.
Import ListNotations.

Set Warnings "-inexact-float".
Local Open Scope string_scope.
Local Open Scope Z_scope.

(* ================================================================== *)
(** ** Python strings *)
(* ================================================================== *)

Module PyStr.

(** [str.strip()] with no argument removes white space; on ASCII text
    these are the characters 9-13, 28-31 and 32. *)
Definition is_space (c : ascii) : bool :=
  let n := nat_of_ascii c in
  ((9 <=? n) && (n <=? 13) || (28 <=? n) && (n <=? 32))%nat.

Definition is_digit (c : ascii) : bool :=
  let n := nat_of_ascii c in ((48 <=? n) && (n <=? 57))%nat.

Fixpoint lstrip (s : string) : string :=
  match s with
  | EmptyString => EmptyString
  | String c s' => if is_space c then lstrip s' else s
  end.

(** Removal of the longest suffix whose characters satisfy [p]. *)
Fixpoint rstrip_by (p : ascii -> bool) (s : string) : string :=
  match s with
  | EmptyString => EmptyString
  | String c s' =>
      match rstrip_by p s' with
      | EmptyString => if p c then EmptyString else String c EmptyString
      | t => String c t
      end
  end.

Definition strip (s : string) : string := rstrip_by is_space (lstrip s).

(** [s.rstrip(c)] for a one-character argument. *)
Definition rstrip (c : ascii) (s : string) : string :=
  rstrip_by (Ascii.eqb c) s.

Definition lower_ascii (c : ascii) : ascii :=
  let n := nat_of_ascii c in
  if ((65 <=? n) && (n <=? 90))%nat then ascii_of_nat (n + 32) else c.

Fixpoint lower (s : string) : string :=
  match s with
  | EmptyString => EmptyString
  | String c s' => String (lower_ascii c) (lower s')
  end.

(** The longest prefix of decimal digits, and what follows it. *)
Fixpoint span_digits (s : string) : string * string :=
  match s with
  | EmptyString => (EmptyString, EmptyString)
  | String c s' =>
      if is_digit c
      then let '(d, r) := span_digits s' in (String c d, r)
      else (EmptyString, s)
  end.

Definition digit_val (c : ascii) : Z := Z.of_nat (nat_of_ascii c) - 48.

(** Value of a string of decimal digits, most significant first. *)
Fixpoint digits_val (acc : Z) (s : string) : Z :=
  match s with
  | EmptyString => acc
  | String c s' => digits_val (10 * acc + digit_val c) s'
  end.

Definition digit_char (d : Z) : ascii := ascii_of_nat (Z.to_nat d + 48).

(** Decimal digits of a non-negative integer, most significant first;
    [fuel] bounds the number of digits. *)
Fixpoint dec_digits (fuel : nat) (n : Z) (acc : string) : string :=
  match fuel with
  | O => acc
  | S fuel' =>
      let acc' := String (digit_char (n mod 10)) acc in
      if n / 10 =? 0 then acc' else dec_digits fuel' (n / 10) acc'
  end.

Definition str_of_nonneg (n : Z) : string :=
  dec_digits (S (Z.to_nat (Z.log2 n))) n EmptyString.

(** [str(n)] for a Python [int]. *)
Definition str_of_Z (n : Z) : string :=
  if n <? 0 then String "-" (str_of_nonneg (- n)) else str_of_nonneg n.

(** [k] decimal digits of [n], zero padded on the left. *)
Fixpoint pad_digits (k : nat) (n : Z) (acc : string) : string :=
  match k with
  | O => acc
  | S k' => pad_digits k' (n / 10) (String (digit_char (n mod 10)) acc)
  end.




End PyStr.

(* ================================================================== *)
(** ** Python floats *)
(* ================================================================== *)

(** Python exceptions that the modelled code can meet.  [Fault] stands for
  any exception raised by the exchange library (transport, authentication,
  ...); its text is what [str(e)] gives. *)
Inductive exn : Type :=
| ValueError (msg : string)
| OverflowError (msg : string)
| ZeroDivisionError
| EOFError
| StopIteration
| Fault (msg : string).

Definition str_of_exn (e : exn) : string :=
  match e with
  | ValueError m => m
  | OverflowError m => m
  | ZeroDivisionError => "float division by zero"
  | EOFError => "EOF when reading a line"
  | StopIteration => ""
  | Fault m => m
  end.

(** Outcome of a Python expression that may raise. *)
Inductive result (A : Type) : Type :=
| Ok (a : A)
| Raise (e : exn).
Arguments Ok {A} a.
Arguments Raise {A} e.

Module PyFloat.
Import PyStr.
Local Open Scope float_scope.

(** Truth value of a float: every float but the two zeros is true. *)
Definition truthy (x : float) : bool := negb (x =? 0).

(** [int(x)]: truncation toward zero; raises on NaN and on infinities. *)
Definition int_of_float (x : float) : result Z :=
  match Prim2SF x with
  | S754_zero _ => Ok 0%Z
  | S754_nan => Raise (ValueError "cannot convert float NaN to integer")
  | S754_infinity _ =>
      Raise (OverflowError "cannot convert float infinity to integer")
  | S754_finite s m e =>
      let a := match e with
               | Zneg k => (Zpos m / 2 ^ Zpos k)%Z
               | _ => (Zpos m * 2 ^ e)%Z
               end in
      Ok (if s then (- a)%Z else a)
  end.

(** Round half to even of the rational [n / d], for [0 <= n] and [0 < d]. *)
Definition round_half_even (n d : Z) : Z :=
  let q := (n / d)%Z in
  let r := (n mod d)%Z in
  match (2 * r ?= d)%Z with
  | Lt => q
  | Gt => (q + 1)%Z
  | Eq => if Z.even q then q else (q + 1)%Z
  end.

(** The integer nearest to [|x| * 10^7] (ties to even), for a finite
    [x = m * 2^e]: the digits that ["{:.7f}"] prints. *)
Definition scaled7 (m : positive) (e : Z) : Z :=
  match e with
  | Zneg k => round_half_even (Zpos m * 10 ^ 7) (2 ^ Zpos k)
  | _ => (Zpos m * 2 ^ e * 10 ^ 7)%Z
  end.

Definition fixed7 (sign : bool) (n : Z) : string :=
  ((if sign then "-" else "")
     ++ str_of_nonneg (n / 10 ^ 7) ++ "." ++ pad_digits 7 (n mod 10 ^ 7) "")%string.

(** ["{:.7f}".format(x)]: the correctly rounded decimal expansion of [x]
    with seven digits after the point; [nan] and [inf] for the special
    values. *)
Definition format_7f (x : float) : string :=
  match Prim2SF x with
  | S754_nan => "nan"
  | S754_infinity s => if s then "-inf" else "inf"
  | S754_zero s => fixed7 s 0
  | S754_finite s m e => fixed7 s (scaled7 m e)
  end.

(** *** [float(s)] for a string

    The grammar of CPython's [float] on ASCII text: surrounding white
    space is dropped, single underscores may separate digits, then an
    optional sign and either [inf], [infinity], [nan] (any case) or a
    decimal numeral with an optional exponent.  The value is the binary64
    number nearest to the decimal one (ties to even). *)

(** Underscores are allowed only between two digits. *)
Fixpoint drop_underscores (prev : ascii) (s : string) : option string :=
  match s with
  | EmptyString => if Ascii.eqb prev "_" then None else Some EmptyString
  | String c s' =>
      if Ascii.eqb c "_" then
        if is_digit prev then drop_underscores c s' else None
      else if Ascii.eqb prev "_" && negb (is_digit c) then None
      else match drop_underscores c s' with
           | Some t => Some (String c t)
           | None => None
           end
  end.

Definition split_sign (s : string) : bool * string :=
  match s with
  | String "-" s' => (true, s')
  | String "+" s' => (false, s')
  | _ => (false, s)
  end.

(** The exponent part: empty, or [e] or [E], an optional sign and at
    least one digit, up to the end of the text. *)
Definition parse_exponent (s : string) : option Z :=
  match s with
  | EmptyString => Some 0%Z
  | String c s' =>
      if Ascii.eqb c "e" || Ascii.eqb c "E" then
        let '(neg, s'') := split_sign s' in
        let '(ds, rest) := span_digits s'' in
        match ds, rest with
        | String _ _, EmptyString =>
            Some (if neg then (- digits_val 0 ds)%Z else digits_val 0 ds)
        | _, _ => None
        end
      else None
  end.

(** The binary64 number nearest to [(-1)^sign * m * 10^e]. *)
Definition of_decimal (sign : bool) (m e : Z) : float :=
  match m with
  | Zpos p =>
      let num := match e with Zpos _ => (Zpos p * 10 ^ e)%Z | _ => Zpos p end in
      let den := match e with Zneg k => (10 ^ Zpos k)%Z | _ => 1%Z end in
      SF2Prim (SFdiv prec emax
                 (S754_finite sign (Z.to_pos num) 0)
                 (S754_finite false (Z.to_pos den) 0))
  | _ => if sign then neg_zero else zero
  end.

Definition parse_numeral (sign : bool) (s : string) : option float :=
  let '(ip, r1) := span_digits s in
  let '(fp, r2) := match r1 with
                   | String "." r => span_digits r
                   | _ => (EmptyString, r1)
                   end in
  match (ip ++ fp)%string with
  | EmptyString => None
  | String _ _ as ds =>
      match parse_exponent r2 with
      | Some ex =>
          Some (of_decimal sign (digits_val 0 ds)
                  (ex - Z.of_nat (String.length fp)))
      | None => None
      end
  end.

Definition float_of_string (s : string) : option float :=
  match drop_underscores " " (strip s) with
  | None => None
  | Some t =>
      let '(sign, body) := split_sign t in
      let l := lower body in
      if String.eqb l "inf" || String.eqb l "infinity"
      then Some (if sign then neg_infinity else infinity)
      else if String.eqb l "nan" then Some nan
      else parse_numeral sign body
  end.

End PyFloat.

(* ================================================================== *)
(** ** Python values exchanged with the client *)
(* ================================================================== *)

(** The values that reach [place_order] as a quantity or a price. *)
Inductive pyval : Type :=
| VNone
| VInt (z : Z)
| VFloat (x : float)
| VStr (s : string).

(** [str(v)]: text for [None], integers and strings; the shortest
    round-trip numeral of a float is kept symbolic. *)
Inductive pytext : Type :=
| Text (s : string)
| FloatRepr (x : float).

Definition py_str (v : pyval) : pytext :=
  match v with
  | VNone => Text "None"
  | VInt z => Text (PyStr.str_of_Z z)
  | VFloat x => FloatRepr x
  | VStr s => Text s
  end.

(** The value under the key ["code"] of a response. *)
Inductive pycode : Type :=
| CodeStr (s : string)
| CodeInt (z : Z).

(** A response dictionary, with the keys the program reads; [None] is a
    missing key. *)
Record response (D : Type) : Type := mkResponse {
  r_code : option pycode;
  r_msg : option string;
  r_data : option D
}.
Arguments mkResponse {D} _ _ _.
Arguments r_code {D} _.
Arguments r_msg {D} _.
Arguments r_data {D} _.

(** [not response]: the empty dictionary. *)
Definition response_is_empty {D : Type} (r : response D) : bool :=
  match r_code r, r_msg r, r_data r with
  | None, None, None => true
  | _, _, _ => false
  end.

(** [response.get("code") == "00000"] *)
Definition code_is_success {D : Type} (r : response D) : bool :=
  match r_code r with
  | Some (CodeStr s) => String.eqb s "00000"
  | _ => false
  end.

(** [{"code": -1, "msg": msg}], with ["data"] when the wrapper adds it. *)
Definition error_response {D : Type} (msg : string) (data : option D) : response D :=
  mkResponse (Some (CodeInt (-1))) (Some msg) data.

Record asset : Type := mkAsset {
  coinName : string;
  available : string
}.

Record ticker : Type := mkTicker {
  close : option string
}.

Record placed : Type := mkPlaced {
  orderId : option string
}.

Record open_order : Type := mkOpenOrder {
  o_side : option string;
  o_orderType : option string;
  o_orderId : option string
}.

(** The keyword arguments of [spot_place_order]. *)
Record order_params : Type := mkParams {
  p_symbol : string;
  p_side : string;
  p_orderType : string;
  p_force : string;
  p_clientOrderId : string;
  p_price : option pytext;
  p_quantity : option pytext
}.

(** What an [execute_*] method returns: [None], an order id, or a boolean. *)
Inductive outcome : Type :=
| RNone
| ROrder (order_id : string)
| RBool (b : bool).

(** Truth value of an outcome, as the batch summary tests it. *)
Definition outcome_truthy (r : outcome) : bool :=
  match r with
  | RNone => false
  | ROrder s => negb (String.eqb s "")
  | RBool b => b
  end.

(** ** Dictionaries in insertion order *)

Module Dict.

Fixpoint get {V : Type} (d : list (string * V)) (k : string) : option V :=
  match d with
  | [] => None
  | (k', v) :: d' => if String.eqb k k' then Some v else get d' k
  end.

(** [d[k] = v]: replaces the value of an existing key in place, appends a
    new key at the end. *)
Fixpoint set {V : Type} (d : list (string * V)) (k : string) (v : V) : list (string * V) :=
  match d with
  | [] => [(k, v)]
  | (k', v') :: d' =>
      if String.eqb k k' then (k', v) :: d' else (k', v') :: set d' k v
  end.

Definition keys {V : Type} (d : list (string * V)) : list string := map fst d.

Definition values {V : Type} (d : list (string * V)) : list V := map snd d.

(** The keys of a dictionary are pairwise distinct. *)
Definition wf {V : Type} (d : list (string * V)) : Prop := NoDup (keys d).

End Dict.

(* ================================================================== *)
(** ** The Quantity Formatter: [format_quantity_for_api] *)
(* ================================================================== *)

(** The argument is a number or a string. *)
Inductive quantity_arg : Type :=
| QNum (x : float)
| QStr (s : string).

Definition format_quantity_for_api (quantity : quantity_arg) : string :=
  let parsed :=
    match quantity with
    | QStr s =>
        match PyFloat.float_of_string s with
        | Some x => inl x
        | None => inr s
        end
    | QNum x => inl x
    end in
  match parsed with
  | inr s => s
  | inl q =>
      if (q <? 0.0001)%float
      then PyStr.rstrip "." (PyStr.rstrip "0" (PyFloat.format_7f q))
      else PyStr.rstrip "." (PyStr.rstrip "0" (PyFloat.format_7f q))
  end.



(** [int(quantity) if quantity >= 1 else self.format_quantity_for_api(quantity)] *)
Definition formatted_sell_quantity (quantity : float) : result pyval :=
  if (1 <=? quantity)%float
  then match PyFloat.int_of_float quantity with
       | Ok z => Ok (VInt z)
       | Raise e => Raise e
       end
  else Ok (VStr (format_quantity_for_api (QNum quantity))).

(** [available_balance * (sell_percentage / 100)] *)
Definition sell_quantity (available_balance sell_percentage : float) : float :=
  (available_balance * (sell_percentage / 100))%float.

(* ================================================================== *)
(** ** The environment: exchange, clock and console *)
(* ================================================================== *)

(** The three questions [trade_all_accounts] asks on the console; the
    price question shows the current market price, which is also its
    default answer. *)
Inductive prompt : Type :=
| PromptAmount
| PromptPrice (current_price : option float)
| PromptPercentage.

(** Interactions with the environment, recorded in the order they happen:
    calls of the exchange library by account, lines read from the console,
    and the summary line of a batch. *)
Inductive event : Type :=
| EvAssets (account : string) (coin : string)
| EvTicker (account : string) (symbol : string)
| EvPlace (account : string) (params : order_params)
| EvOpenOrders (account : string) (symbol : string)
| EvCancel (account : string) (symbol : string) (order_id : option string)
| EvInput (p : prompt) (reply : string)
| EvSummary (success_count total_count : nat).


Definition is_placement (e : event) : bool :=
  match e with
  | EvPlace _ _ => true
  | _ => false
  end.

(** ["trading"] section of [config.json]; its numbers are taken as
    floats, a key that is missing is [None]. *)
Record trading_config : Type := mkConfig {
  cfg_symbol : string;
  cfg_coin : string;
  cfg_quote : string;
  cfg_buy_amount : option float;
  cfg_sell_percentage : option float;
  cfg_price : option float
}.

(** The dictionary [user_inputs]. *)
Record user_inputs : Type := mkInputs {
  ui_buy_amount : option float;
  ui_sell_percentage : option float;
  ui_price : option float
}.

Definition no_inputs : user_inputs := mkInputs None None None.

(** The exchange library [pybitget], and the clock, act on a world that the
    program cannot inspect; every call may answer or raise. *)
Class Exchange : Type := {
  World : Type;
  Client : Type;
  spot_get_account_assets :
    Client -> string -> World -> result (response (list asset)) * World;
  spot_get_ticker :
    Client -> string -> World -> result (response ticker) * World;
  spot_place_order :
    Client -> order_params -> World -> result (response placed) * World;
  spot_get_open_orders :
    Client -> string -> World -> result (response (list open_order)) * World;
  spot_cance_order :
    Client -> string -> option string -> World -> result (response unit) * World;
  time_time : World -> float * World;
  time_sleep : float -> World -> World
}.

Section Trader.

Context {exchange : Exchange}.

Record state : Type := mkState {
  world : World;
  stdin : list string;
  trace : list event          (* most recent first *)
}.

(** Computations that read and change the state and may raise. *)
Definition M (A : Type) : Type := state -> result A * state.

Definition ret {A : Type} (a : A) : M A := fun st => (Ok a, st).

Definition raise {A : Type} (e : exn) : M A := fun st => (Raise e, st).

Definition bind {A B : Type} (m : M A) (k : A -> M B) : M B :=
  fun st =>
    match m st with
    | (Ok a, st') => k a st'
    | (Raise e, st') => (Raise e, st')
    end.

(** [try: m except Exception as e: h e] *)
Definition try_except {A : Type} (m : M A) (h : exn -> M A) : M A :=
  fun st =>
    match m st with
    | (Ok a, st') => (Ok a, st')
    | (Raise e, st') => h e st'
    end.

Definition lift {A : Type} (r : result A) : M A := fun st => (r, st).

Notation "x <- m ;; k" := (bind m (fun x => k))
  (at level 61, m at next level, right associativity).

(** A call of the exchange library, recorded in the trace. *)
Definition call {A : Type} (e : event) (f : World -> result A * World) : M A :=
  fun st =>
    let '(r, w) := f (world st) in
    (r, mkState w (stdin st) (e :: trace st)).

(** [input(...)]: the next line of the console. *)
Definition input (p : prompt) : M string :=
  fun st =>
    match stdin st with
    | [] => (Raise EOFError, st)
    | line :: rest => (Ok line, mkState (world st) rest (EvInput p line :: trace st))
    end.

Definition now : M float :=
  fun st =>
    let '(t, w) := time_time (world st) in
    (Ok t, mkState w (stdin st) (trace st)).

Definition sleep (seconds : float) : M unit :=
  fun st => (Ok tt, mkState (time_sleep seconds (world st)) (stdin st) (trace st)).

Definition print_summary (success_count total_count : nat) : M unit :=
  fun st =>
    (Ok tt, mkState (world st) (stdin st) (EvSummary success_count total_count :: trace st)).

(** [float(s)] for a string [s]. *)
Definition float_of (s : string) : M float :=
  match PyFloat.float_of_string s with
  | Some x => ret x
  | None => raise (ValueError "could not convert string to float")
  end.

(* ------------------------------------------------------------------ *)
(** *** class [BitgetClient] *)

Record BitgetClient : Type := mkBitgetClient {
  account_name : string;
  client : Client
}.

Definition is_none {A : Type} (o : option A) : bool :=
  match o with
  | None => true
  | Some _ => false
  end.

Definition get_account_assets (self : BitgetClient) (coin : option string)
  : M (response (list asset)) :=
  try_except
    (response <-
       match coin with
       | Some (String _ _ as c) =>
           call (EvAssets (account_name self) c)
             (spot_get_account_assets (client self) c)
       | _ =>
           call (EvAssets (account_name self) "SPELL")
             (spot_get_account_assets (client self) "SPELL")
       end ;;
     if response_is_empty response || is_none (r_data response)
     then ret (error_response "Invalid API response" None)
     else ret response)
    (fun e => ret (error_response (str_of_exn e) None)).

Definition place_order (self : BitgetClient) (symbol side orderType : string)
  (quantity : pyval) (price : option float) : M (response placed) :=
  try_except
    (t <- now ;;
     ms <- lift (PyFloat.int_of_float (t * 1000)%float) ;;
     let params :=
       mkParams symbol side orderType "gtc" (PyStr.str_of_Z ms) None None in
     params <-
       (if String.eqb orderType "limit" then
          match price with
          | Some p =>
              if negb (PyFloat.truthy p) || (p <=? 0)%float
              then raise (ValueError "Limit orders require a valid price")
              else ret (mkParams symbol side orderType "gtc" (PyStr.str_of_Z ms)
                          (Some (py_str (VFloat p))) (Some (py_str quantity)))
          | None => raise (ValueError "Limit orders require a valid price")
          end
        else if String.eqb orderType "market" then
          ret (mkParams symbol side orderType "gtc" (PyStr.str_of_Z ms)
                 None (Some (py_str quantity)))
        else ret params) ;;
     call (EvPlace (account_name self) params)
       (spot_place_order (client self) params))
    (fun e => ret (error_response (str_of_exn e) None)).

Definition get_current_price (self : BitgetClient) (symbol : string)
  : M (option float) :=
  try_except
    (response <-
       call (EvTicker (account_name self) symbol)
         (spot_get_ticker (client self) symbol) ;;
     match r_data response with
     | Some data =>
         match close data with
         | Some c => x <- float_of c ;; ret (Some x)
         | None => ret None
         end
     | None => ret None
     end)
    (fun _ => ret None).

Definition get_open_orders (self : BitgetClient) (symbol : string)
  : M (response (list open_order)) :=
  try_except
    (response <-
       call (EvOpenOrders (account_name self) symbol)
         (spot_get_open_orders (client self) symbol) ;;
     if response_is_empty response || is_none (r_data response)
     then ret (error_response "Invalid API response" (Some []))
     else ret response)
    (fun e => ret (error_response (str_of_exn e) (Some []))).

Definition cancel_order (self : BitgetClient) (symbol : string)
  (order_id : option string) : M (response unit) :=
  try_except
    (call (EvCancel (account_name self) symbol order_id)
       (spot_cance_order (client self) symbol order_id))
    (fun e => ret (error_response (str_of_exn e) None)).

(* ------------------------------------------------------------------ *)
(** *** class [MultiAccountTrader] *)

(** An entry of [self.clients]. *)
Record account_info : Type := mkAccount {
  ai_client : BitgetClient;
  ai_active : bool
}.

Record MultiAccountTrader : Type := mkTrader {
  config : trading_config;
  clients : list (string * account_info)
}.

(** [result.get("data", {}).get("orderId", "unknown")] *)
Definition order_id_of (result : response placed) : string :=
  match r_data result with
  | Some data =>
      match orderId data with
      | Some id => id
      | None => "unknown"
      end
  | None => "unknown"
  end.

(** The end of the four order methods: classification of the response. *)
Definition classify_placement (result : response placed) : outcome :=
  if code_is_success result then ROrder (order_id_of result) else RNone.

(** [x / y] on floats raises when [y] is zero. *)
Definition py_truediv (x y : float) : result float :=
  if (y =? 0)%float then Raise ZeroDivisionError else Ok (x / y)%float.

(** [current_price or 0] *)
Definition price_or_zero (current_price : option float) : float :=
  match current_price with
  | Some p => if PyFloat.truthy p then p else 0%float
  | None => 0%float
  end.

Definition execute_buy_market (self : MultiAccountTrader) (name : string)
  (info : account_info) (inputs : user_inputs) : M outcome :=
  try_except
    (let client := ai_client info in
     let symbol := cfg_symbol (config self) in
     match
       match ui_buy_amount inputs with
       | Some q => Some q
       | None => cfg_buy_amount (config self)
       end
     with
     | None => ret RNone
     | Some quantity =>
         if (quantity <=? 0)%float then ret RNone
         else
           result <- place_order client symbol "buy" "market" (VFloat quantity) None ;;
           ret (classify_placement result)
     end)
    (fun _ => ret RNone).

Definition execute_buy_limit (self : MultiAccountTrader) (name : string)
  (info : account_info) (inputs : user_inputs) : M outcome :=
  try_except
    (let client := ai_client info in
     let symbol := cfg_symbol (config self) in
     match
       match ui_buy_amount inputs with
       | Some q => Some q
       | None => cfg_buy_amount (config self)
       end
     with
     | None => ret RNone
     | Some quantity =>
         price <-
           match ui_price inputs with
           | Some p => ret p
           | None =>
               match cfg_price (config self) with
               | Some p =>
                   if (0 <? p)%float then ret p
                   else current_price <- get_current_price client symbol ;;
                        ret (price_or_zero current_price)
               | None =>
                   current_price <- get_current_price client symbol ;;
                   ret (price_or_zero current_price)
               end
           end ;;
         if (quantity <=? 0)%float || (price <=? 0)%float then ret RNone
         else
           _ <- lift (formatted_sell_quantity quantity) ;;
           base_quantity <- lift (py_truediv quantity price) ;;
           result <- place_order client symbol "buy" "limit"
                       (VFloat base_quantity) (Some price) ;;
           ret (classify_placement result)
     end)
    (fun _ => ret RNone).

(** The loop over [assets["data"]] that reads the available balance of
    [coin]; the balance is [0] when the coin is not listed. *)
Fixpoint find_available (coin : string) (data : list asset) : M float :=
  match data with
  | [] => ret 0%float
  | a :: rest =>
      if String.eqb (coinName a) coin then float_of (available a)
      else find_available coin rest
  end.

Definition execute_sell_market (self : MultiAccountTrader) (name : string)
  (info : account_info) (inputs : user_inputs) : M outcome :=
  try_except
    (let client := ai_client info in
     let symbol := cfg_symbol (config self) in
     let coin := cfg_coin (config self) in
     assets <- get_account_assets client (Some coin) ;;
     match r_data assets with
     | None | Some [] => ret RNone
     | Some data =>
         available_balance <- find_available coin data ;;
         if (available_balance <=? 0)%float then ret RNone
         else
           match
             match ui_sell_percentage inputs with
             | Some p => Some p
             | None => cfg_sell_percentage (config self)
             end
           with
           | None => ret RNone
           | Some sell_percentage =>
               if (sell_percentage <=? 0)%float || (100 <? sell_percentage)%float
               then ret RNone
               else
                 _ <- get_current_price client symbol ;;
                 let quantity := sell_quantity available_balance sell_percentage in
                 sent <- lift (formatted_sell_quantity quantity) ;;
                 result <- place_order client symbol "sell" "market" sent None ;;
                 ret (classify_placement result)
           end
     end)
    (fun _ => ret RNone).

Definition execute_sell_limit (self : MultiAccountTrader) (name : string)
  (info : account_info) (inputs : user_inputs) : M outcome :=
  try_except
    (let client := ai_client info in
     let symbol := cfg_symbol (config self) in
     let coin := cfg_coin (config self) in
     assets <- get_account_assets client (Some coin) ;;
     match r_data assets with
     | None | Some [] => ret RNone
     | Some data =>
         available_balance <- find_available coin data ;;
         if (available_balance <=? 0)%float then ret RNone
         else
           current_price <- get_current_price client symbol ;;
           match
             match ui_sell_percentage inputs with
             | Some p => Some p
             | None => cfg_sell_percentage (config self)
             end
           with
           | None => ret RNone
           | Some sell_percentage =>
               let price :=
                 match ui_price inputs with
                 | Some p => p
                 | None =>
                     match cfg_price (config self) with
                     | Some p =>
                         if (0 <? p)%float then p else price_or_zero current_price
                     | None => price_or_zero current_price
                     end
                 end in
               if (sell_percentage <=? 0)%float || (100 <? sell_percentage)%float
                  || (price <=? 0)%float
               then ret RNone
               else
                 let quantity := sell_quantity available_balance sell_percentage in
                 sent <- lift (formatted_sell_quantity quantity) ;;
                 result <- place_order client symbol "sell" "limit" sent (Some price) ;;
                 ret (classify_placement result)
           end
     end)
    (fun _ => ret RNone).

(** [order.get("side") == side and order.get("orderType") == "limit"] *)
Definition is_limit_order_of (side : string) (order : open_order) : bool :=
  match o_side order, o_orderType order with
  | Some s, Some t => String.eqb s side && String.eqb t "limit"
  | _, _ => false
  end.

(** The loop that cancels the selected orders one by one, counting. *)
Fixpoint cancel_each (client : BitgetClient) (symbol : string)
  (orders : list open_order) (cancelled_count failed_count : nat) : M (nat * nat) :=
  match orders with
  | [] => ret (cancelled_count, failed_count)
  | order :: rest =>
      result <- cancel_order client symbol (o_orderId order) ;;
      if code_is_success result
      then cancel_each client symbol rest (S cancelled_count) failed_count
      else cancel_each client symbol rest cancelled_count (S failed_count)
  end.

(** The common body of [execute_cancel_buy_limits] and
    [execute_cancel_sell_limits], which differ in the side only. *)
Definition execute_cancel_limits (side : string) (self : MultiAccountTrader)
  (name : string) (info : account_info) : M outcome :=
  try_except
    (let client := ai_client info in
     let symbol := cfg_symbol (config self) in
     response <- get_open_orders client symbol ;;
     if negb (code_is_success response) || is_none (r_data response)
     then ret RNone
     else
       let open_orders := match r_data response with Some d => d | None => [] end in
       match filter (is_limit_order_of side) open_orders with
       | [] => ret (RBool true)
       | limit_orders =>
           counts <- cancel_each client symbol limit_orders 0%nat 0%nat ;;
           ret (RBool (0 <? fst counts)%nat)
       end)
    (fun _ => ret RNone).

Definition execute_cancel_buy_limits : MultiAccountTrader -> string -> account_info -> M outcome :=
  execute_cancel_limits "buy".

Definition execute_cancel_sell_limits : MultiAccountTrader -> string -> account_info -> M outcome :=
  execute_cancel_limits "sell".

Definition execute_action (self : MultiAccountTrader) (name : string)
  (info : account_info) (action : string) (inputs : user_inputs) : M outcome :=
  if String.eqb action "buy_market" then execute_buy_market self name info inputs
  else if String.eqb action "buy_limit" then execute_buy_limit self name info inputs
  else if String.eqb action "sell_market" then execute_sell_market self name info inputs
  else if String.eqb action "sell_limit" then execute_sell_limit self name info inputs
  else if String.eqb action "cancel_buy_limits" then execute_cancel_buy_limits self name info
  else if String.eqb action "cancel_sell_limits" then execute_cancel_sell_limits self name info
  else ret RNone.

(* ------------------------------------------------------------------ *)
(** *** [trade_all_accounts] *)

(** The number that a console reply stands for: [float(reply.strip() or
    default)], where the default is ["0"] for the amount, ["100"] for the
    percentage and [str(current_price)] for the price.  [float(str(x))] is
    [x] for a float [x], and [float("None")] raises [ValueError]; [None]
    is a reply that is not a number. *)
Definition reply_value (p : prompt) (reply : string) : option float :=
  match PyStr.strip reply with
  | EmptyString =>
      match p with
      | PromptAmount => PyFloat.float_of_string "0"
      | PromptPercentage => PyFloat.float_of_string "100"
      | PromptPrice current_price => current_price
      end
  | String _ _ as text => PyFloat.float_of_string text
  end.

(** [next(iter(active_accounts.values()))["client"]] *)
Definition first_client (active_accounts : list (string * account_info))
  : M BitgetClient :=
  match active_accounts with
  | [] => raise StopIteration
  | (_, info) :: _ => ret (ai_client info)
  end.

(** The part of [trade_all_accounts] that asks for the missing parameters
    before any account is processed.  [None] stands for the early
    [return results]. *)
Definition collect_user_inputs (self : MultiAccountTrader) (action : string)
  (active_accounts : list (string * account_info)) : M (option user_inputs) :=
  let trading := config self in
  if String.eqb action "buy_market" && is_none (cfg_buy_amount trading) then
    amount <- input PromptAmount ;;
    match reply_value PromptAmount amount with
    | Some x => ret (Some (mkInputs (Some x) None None))
    | None => ret None
    end
  else if String.eqb action "buy_limit" then
    client <- first_client active_accounts ;;
    current_price <- get_current_price client (cfg_symbol trading) ;;
    buy_amount <-
      (if is_none (cfg_buy_amount trading) then
         amount <- input PromptAmount ;;
         match reply_value PromptAmount amount with
         | Some x => ret (Some (Some x))
         | None => ret None
         end
       else ret (Some None)) ;;
    match buy_amount with
    | None => ret None
    | Some buy_amount =>
        if match cfg_price trading with
           | None => true
           | Some p => (p <=? 0)%float
           end
        then
          price_input <- input (PromptPrice current_price) ;;
          match reply_value (PromptPrice current_price) price_input with
          | Some x => ret (Some (mkInputs buy_amount None (Some x)))
          | None => ret None
          end
        else ret (Some (mkInputs buy_amount None None))
    end
  else if String.eqb action "sell_market" && is_none (cfg_sell_percentage trading) then
    percentage <- input PromptPercentage ;;
    match reply_value PromptPercentage percentage with
    | Some x =>
        if (x <=? 0)%float || (100 <? x)%float then ret None
        else ret (Some (mkInputs None (Some x) None))
    | None => ret None
    end
  else if String.eqb action "sell_limit" then
    client <- first_client active_accounts ;;
    current_price <- get_current_price client (cfg_symbol trading) ;;
    sell_percentage <-
      (if is_none (cfg_sell_percentage trading) then
         percentage <- input PromptPercentage ;;
         match reply_value PromptPercentage percentage with
         | Some x =>
             if (x <=? 0)%float || (100 <? x)%float then ret None
             else ret (Some (Some x))
         | None => ret None
         end
       else ret (Some None)) ;;
    match sell_percentage with
    | None => ret None
    | Some sell_percentage =>
        if match cfg_price trading with
           | None => true
           | Some p => (p <=? 0)%float
           end
        then
          price_input <- input (PromptPrice current_price) ;;
          match reply_value (PromptPrice current_price) price_input with
          | Some x => ret (Some (mkInputs None sell_percentage (Some x)))
          | None => ret None
          end
        else ret (Some (mkInputs None sell_percentage None))
    end
  else ret (Some no_inputs).

(** The loop over the active accounts.  [exec] stands for the bound method
    [self.execute_action]; whatever it raises is caught per account. *)
Fixpoint process_accounts (exec : string -> account_info -> M outcome)
  (accounts : list (string * account_info)) (results : list (string * outcome))
  : M (list (string * outcome)) :=
  match accounts with
  | [] => ret results
  | (name, info) :: rest =>
      results' <-
        try_except
          (result <- exec name info ;;
           _ <- sleep 0.3 ;;
           ret (Dict.set results name result))
          (fun _ => ret (Dict.set results name RNone)) ;;
      process_accounts exec rest results'
  end.

(** [len([r for r in results.values() if r])] *)
Definition success_count (results : list (string * outcome)) : nat :=
  List.length (filter outcome_truthy (Dict.values results)).

Definition active_accounts_of (self : MultiAccountTrader)
  : list (string * account_info) :=
  filter (fun entry => ai_active (snd entry)) (clients self).

Definition trade_all_accounts_with
  (exec : string -> account_info -> string -> user_inputs -> M outcome)
  (self : MultiAccountTrader) (action : string) : M (list (string * outcome)) :=
  let active_accounts := active_accounts_of self in
  match active_accounts with
  | [] => ret []
  | _ :: _ =>
      collected <- collect_user_inputs self action active_accounts ;;
      match collected with
      | None => ret []
      | Some inputs =>
          results <-
            process_accounts (fun name info => exec name info action inputs)
              active_accounts [] ;;
          _ <- print_summary (success_count results) (List.length results) ;;
          ret results
      end
  end.

Definition trade_all_accounts (self : MultiAccountTrader) (action : string)
  : M (list (string * outcome)) :=
  trade_all_accounts_with (execute_action self) self action.

End Trader.

(* ================================================================== *)
(** ** Parameter resolution, as the specification words it *)
(* ================================================================== *)

(** First match wins. *)
Fixpoint first_match {A : Type} (sources : list (option A)) : option A :=
  match sources with
  | [] => None
  | Some a :: _ => Some a
  | None :: rest => first_match rest
  end.


Definition resolved_buy_amount (inputs : user_inputs) (cfg : trading_config)
  : option float :=
  first_match [ui_buy_amount inputs; cfg_buy_amount cfg].

Definition resolved_sell_percentage (inputs : user_inputs) (cfg : trading_config)
  : option float :=
  first_match [ui_sell_percentage inputs; cfg_sell_percentage cfg].






(** A console reply that stops the batch: not a number, or a percentage
    [<= 0] or [> 100]. *)
Definition rejected_reply (p : prompt) (reply : string) : bool :=
  match p, reply_value p reply with
  | _, None => true
  | PromptPercentage, Some x => (x <=? 0)%float || (100 <? x)%float
  | _, Some _ => false
  end.

(* ================================================================== *)
(** ** A scripted exchange, for running the model *)
(* ================================================================== *)

Module Demo.

(** What the exchange answers, by account; the script does not change
    while the program runs. *)
Record script : Type := mkScript {
  on_assets : string -> result (response (list asset));
  on_ticker : string -> result (response ticker);
  on_place : string -> order_params -> result (response placed);
  on_open_orders : string -> result (response (list open_order));
  on_cancel : string -> option string -> result (response unit);
  clock : float
}.

#[export] Instance scripted : Exchange := {
  World := script;
  Client := string;
  spot_get_account_assets := fun c _ w => (on_assets w c, w);
  spot_get_ticker := fun c _ w => (on_ticker w c, w);
  spot_place_order := fun c p w => (on_place w c p, w);
  spot_get_open_orders := fun c _ w => (on_open_orders w c, w);
  spot_cance_order := fun c _ id w => (on_cancel w c id, w);
  time_time := fun w => (clock w, w);
  time_sleep := fun _ w => w
}.

Definition ok {D : Type} (data : D) : result (response D) :=
  Ok (mkResponse (Some (CodeStr "00000")) (Some "success") (Some data)).

Definition rejected {D : Type} : result (response D) :=
  Ok (mkResponse (Some (CodeStr "43012")) (Some "Insufficient balance") None).

(** An exchange where every account holds [balance] of BTC, the last price
    is [last], every order is accepted under the id ["1001"], the open
    orders are [orders], and cancellations succeed when [cancel_ok]. *)
Definition market (balance : string) (last : option string)
  (orders : list open_order) (cancel_ok : bool) : script :=
  mkScript
    (fun _ => ok [mkAsset "USDT" "250.0"; mkAsset "BTC" balance])
    (fun _ => ok (mkTicker last))
    (fun _ _ => ok (mkPlaced (Some "1001")))
    (fun _ => ok orders)
    (fun _ _ => if cancel_ok then ok tt else rejected)
    1730000000.5%float.

(** The same exchange, except that it refuses every order. *)
Definition refusing (w : script) : script :=
  mkScript (on_assets w) (on_ticker w) (fun _ _ => rejected)
    (on_open_orders w) (on_cancel w) (clock w).

Definition account (name : string) (active : bool) : string * account_info :=
  (name, mkAccount (mkBitgetClient name name) active).

Definition btc (buy_amount sell_percentage price : option float) : trading_config :=
  mkConfig "BTCUSDT_SPBL" "BTC" "USDT" buy_amount sell_percentage price.

Definition start (w : script) (console : list string) : state :=
  mkState w console [].

Definition a1 : account_info := snd (account "a1" true).


(** One account. *)
Definition solo (cfg : trading_config) : MultiAccountTrader :=
  mkTrader cfg [account "a1" true].

Definition pair : MultiAccountTrader :=
  mkTrader (btc (Some 50%float) None None) [account "a1" true; account "a2" true].

Definition trio : MultiAccountTrader :=
  mkTrader (btc (Some 50%float) None None)
    [account "a1" true; account "a2" false; account "a3" true].

(** Half of the balance, at a configured price. *)
Definition priced : MultiAccountTrader :=
  solo (btc (Some 50%float) (Some 50%float) (Some 61000%float)).

Definition seller : MultiAccountTrader := solo (btc None (Some 50%float) None).



Definition calm : state := start (market "0.002" (Some "60000") [] true) [].
Definition empty_wallet : state := start (market "0" (Some "60000") [] true) [].
Definition refused : state :=
  start (refusing (market "0.002" (Some "60000") [] true)) [].

(** [empty_wallet] after the balance query of the account ["a1"]. *)
Definition queried : state :=
  snd (get_account_assets (ai_client a1) (Some "BTC") empty_wallet).

End Demo.

(* ================================================================== *)
(** * Properties *)
(* ================================================================== *)

(** ** Rounding of binary64 products and quotients

    The facts are derived from the specification of the primitive
    operations in [SpecFloat]: a product or a quotient is the exact value
    rounded to nearest, and rounding does not step over a representable
    number. *)

Module FloatFacts.

Abbreviation fexp64 := (SpecFloat.fexp prec emax).

Ltac fexp_lia :=
  unfold SpecFloat.fexp, SpecFloat.emin, prec, emax in *; lia.

Lemma digits2_pos_size p : digits2_pos p = Pos.size p.
Proof. induction p; simpl; congruence. Qed.

Lemma Zdigits2_log2 m : 0 < m -> Zdigits2 m = Z.log2 m + 1.
Proof.
  destruct m as [|p|p]; try lia. intros _. simpl.
  rewrite digits2_pos_size. destruct p; simpl; lia.
Qed.

Lemma Zdigits2_nonneg m : 0 <= m -> 0 <= Zdigits2 m.
Proof. destruct m; simpl; lia. Qed.

Lemma Zdigits2_mono m n : 0 <= m <= n -> Zdigits2 m <= Zdigits2 n.
Proof.
  intros [Hm Hn]. destruct (Z.eq_dec m 0) as [->|Hz].
  - apply Zdigits2_nonneg; lia.
  - rewrite !Zdigits2_log2 by lia.
    apply Z.add_le_mono_r, Z.log2_le_mono; lia.
Qed.


Lemma Zdigits2_lower m : 0 < m -> 2 ^ (Zdigits2 m - 1) <= m.
Proof.
  intros Hm. rewrite Zdigits2_log2 by lia.
  replace (Z.log2 m + 1 - 1) with (Z.log2 m) by lia.
  apply Z.log2_spec; lia.
Qed.

Lemma Zdigits2_upper m : 0 <= m -> m < 2 ^ Zdigits2 m.
Proof.
  intros Hm. destruct (Z.eq_dec m 0) as [->|Hz]; [reflexivity|].
  rewrite Zdigits2_log2 by lia.
  replace (Z.log2 m + 1) with (Z.succ (Z.log2 m)) by lia.
  apply Z.log2_spec; lia.
Qed.


(** *** Right shifts with sticky bits *)

















(** *** Rounding stays below a representable bound *)



(** *** Valid floats *)

Lemma valid_finite s m e :
  valid_binary (S754_finite s m e) = true ->
  e = fexp64 (Zdigits2 (Zpos m) + e) /\ e <= emax - prec.
Proof.
  unfold SpecFloat.valid_binary, bounded, canonical_mantissa.
  intros H. apply andb_true_iff in H as [H1 H2].
  apply Z.eqb_eq in H1. apply Z.leb_le in H2. simpl. split; [symmetry|]; assumption.
Qed.





(** *** Division by a larger number *)


(** From the order of two canonical numbers to the order of their values. *)
Lemma SFleb_finite_inv mp ep md ed :
  valid_binary (S754_finite false mp ep) = true ->
  valid_binary (S754_finite false md ed) = true ->
  SFleb (S754_finite false mp ep) (S754_finite false md ed) = true ->
  ep <= ed /\ Zpos mp <= Zpos md * 2 ^ (ed - ep) /\
  Zdigits2 (Zpos mp) + ep <= Zdigits2 (Zpos md) + ed.
Proof.
  intros Vp Vd H.
  apply valid_finite in Vp as [Cp _]. apply valid_finite in Vd as [Cd _].
  unfold SFleb, SFcompare in H.
  pose proof (Zdigits2_upper (Zpos mp) ltac:(lia)) as Up.
  pose proof (Zdigits2_lower (Zpos md) ltac:(lia)) as Ld.
  assert (1 <= Zdigits2 (Zpos mp)) by (simpl; lia).
  assert (1 <= Zdigits2 (Zpos md)) by (simpl; lia).
  destruct (Z.compare_spec ep ed) as [Heq|Hlt|Hgt].
  - subst ed. rewrite Z.sub_diag, Z.mul_1_r.
    rewrite Pos.compare_cont_spec in H. simpl in H.
    assert (Zpos mp <= Zpos md).
    { destruct (Pos.compare_spec mp md); try discriminate H; lia. }
    split; [lia|split; [assumption|]].
    apply Z.add_le_mono_r. apply Zdigits2_mono. lia.
  -       assert (Dd : Zdigits2 (Zpos md) = 53) by fexp_lia.
    assert (Dp : Zdigits2 (Zpos mp) <= 53) by fexp_lia.
    split; [lia|split; [|lia]].
    rewrite Dd in Ld.
    assert (Zpos mp < 2 ^ 53).
    { eapply Z.lt_le_trans; [exact Up|]. apply Z.pow_le_mono_r; lia. }
    assert (2 ^ 1 <= 2 ^ (ed - ep)) by (apply Z.pow_le_mono_r; lia).
    change (2 ^ 53) with (2 * 2 ^ 52) in *. change (53 - 1) with 52 in Ld.
    change (2 ^ 1) with 2 in *. nia.
  - discriminate H.
Qed.



(** *** The primitive operations *)

Local Open Scope float_scope.




End FloatFacts.


(* ------------------------------------------------------------------ *)
(** ** Decimal text *)

Module StrFacts.
Import PyStr.









(** *** Stripping on the right *)












Lemma app_assoc s t u : (s ++ t) ++ u = s ++ t ++ u.
Proof. induction s; simpl; congruence. Qed.


End StrFacts.

(* ------------------------------------------------------------------ *)
(** ** The Quantity Formatter *)

Module FormatFacts.
Import PyStr PyFloat StrFacts.








End FormatFacts.


Example format_quantity_for_api_examples :
  format_quantity_for_api (QNum 1.17e-05) = "0.0000117" /\
  format_quantity_for_api (QNum 0.001) = "0.001" /\
  format_quantity_for_api (QNum 100) = "100" /\
  format_quantity_for_api (QStr " 2.50 ") = "2.5" /\
  format_quantity_for_api (QStr "abc") = "abc" /\
  format_quantity_for_api (QNum infinity) = "inf".
Proof. repeat split; vm_compute; reflexivity. Qed.

(* ------------------------------------------------------------------ *)
(** ** The sell quantity *)



(* ------------------------------------------------------------------ *)
(** ** Reasoning about computations

    A weakest-precondition calculus for [M]: one rule per construct and one
    per method of [BitgetClient], so that a method of the trader is
    followed call by call. *)

Section Logic.
Context {exchange : Exchange}.

(** [t] is [old] with new events in front, each satisfying [P]. *)
Inductive extends (P : event -> Prop) (old : list event) : list event -> Prop :=
| extends_refl : extends P old old
| extends_cons e t : P e -> extends P old t -> extends P old (e :: t).

Lemma extends_iff P old t :
  extends P old t <-> exists evs, t = (evs ++ old)%list /\ Forall P evs.
Proof.
  split.
  - induction 1 as [|e t He _ (evs & -> & Hevs)].
    + exists []. split; [reflexivity|constructor].
    + exists (e :: evs). split; [reflexivity|constructor; assumption].
  - intros (evs & -> & Hevs). induction Hevs; simpl; constructor; assumption.
Qed.

Lemma extends_trans P old mid new :
  extends P old mid -> extends P mid new -> extends P old new.
Proof. intros H1 H2. induction H2; [assumption|constructor; assumption]. Qed.

Lemma extends_mono (P Q : event -> Prop) old t :
  (forall e, P e -> Q e) -> extends P old t -> extends Q old t.
Proof. intros H E. induction E; constructor; auto. Qed.

(** Weakest precondition of a computation for a postcondition on its
    outcome and final state. *)
Definition wp {A : Type} (m : M A) (st : state) (Q : result A -> state -> Prop) : Prop :=
  Q (fst (m st)) (snd (m st)).

Lemma wp_run {A : Type} (m : M A) st Q r st' :
  wp m st Q -> m st = (r, st') -> Q r st'.
Proof. unfold wp. intros H E. rewrite E in H. exact H. Qed.

Lemma wp_mono {A : Type} (m : M A) st (Q Q' : result A -> state -> Prop) :
  (forall r st', Q r st' -> Q' r st') -> wp m st Q -> wp m st Q'.
Proof. unfold wp. auto. Qed.

Lemma wp_ret {A : Type} (a : A) st Q : Q (Ok a) st -> wp (ret a) st Q.
Proof. exact (fun H => H). Qed.

Lemma wp_raise {A : Type} e st (Q : result A -> state -> Prop) :
  Q (Raise e) st -> wp (raise e) st Q.
Proof. exact (fun H => H). Qed.

Lemma wp_lift {A : Type} (r : result A) st Q : Q r st -> wp (lift r) st Q.
Proof. exact (fun H => H). Qed.

Lemma wp_bind {A B : Type} (m : M A) (k : A -> M B) st Q :
  wp m st (fun r st' =>
             match r with
             | Ok a => wp (k a) st' Q
             | Raise e => Q (Raise e) st'
             end) ->
  wp (bind m k) st Q.
Proof.
  unfold wp, bind. destruct (m st) as [[a|e] st']; simpl; auto.
Qed.

Lemma wp_try_except {A : Type} (m : M A) (h : exn -> M A) st Q :
  wp m st (fun r st' =>
             match r with
             | Ok a => Q (Ok a) st'
             | Raise e => wp (h e) st' Q
             end) ->
  wp (try_except m h) st Q.
Proof.
  unfold wp, try_except. destruct (m st) as [[a|e] st']; simpl; auto.
Qed.

Lemma wp_call {A : Type} e (f : World -> result A * World) st Q :
  (forall r w, Q r (mkState w (stdin st) (e :: trace st))) ->
  wp (call e f) st Q.
Proof.
  unfold wp, call. intros H. destruct (f (world st)) as [r w]. apply H.
Qed.

Lemma wp_now st Q :
  (forall t w, time_time (world st) = (t, w) -> Q (Ok t) (mkState w (stdin st) (trace st))) ->
  wp now st Q.
Proof.
  unfold wp, now. intros H. destruct (time_time (world st)) as [t w] eqn:E.
  apply H. reflexivity.
Qed.

Lemma wp_sleep s st Q :
  (forall w, Q (Ok tt) (mkState w (stdin st) (trace st))) -> wp (sleep s) st Q.
Proof. unfold wp, sleep. intros H. apply H. Qed.

Lemma wp_float_of s st Q :
  (forall x, PyFloat.float_of_string s = Some x -> Q (Ok x) st) ->
  (forall e, PyFloat.float_of_string s = None -> Q (Raise e) st) ->
  wp (float_of s) st Q.
Proof.
  unfold float_of. intros H1 H2.
  destruct (PyFloat.float_of_string s); [apply wp_ret | apply wp_raise]; auto.
Qed.

(** *** The client wrappers *)

Lemma wp_get_account_assets self coin st Q :
  (forall resp w c,
      Q (Ok resp) (mkState w (stdin st) (EvAssets (account_name self) c :: trace st))) ->
  wp (get_account_assets self coin) st Q.
Proof.
  intros H. unfold get_account_assets.
  apply wp_try_except, wp_bind.
  assert (K : forall c,
             wp (call (EvAssets (account_name self) c)
                   (spot_get_account_assets (client self) c)) st
               (fun r st' =>
                  match r with
                  | Ok a =>
                      wp (if response_is_empty a || is_none (r_data a)
                          then ret (error_response "Invalid API response" None)
                          else ret a) st'
                        (fun r0 st'0 =>
                           match r0 with
                           | Ok a0 => Q (Ok a0) st'0
                           | Raise e =>
                               wp (ret (error_response (str_of_exn e) None)) st'0 Q
                           end)
                  | Raise e =>
                      wp (ret (error_response (str_of_exn e) None)) st' Q
                  end)).
  { intros c. apply wp_call. intros [resp|e] w.
    - destruct (response_is_empty resp || is_none (r_data resp)); apply wp_ret, H.
    - apply wp_ret, H. }
  destruct coin as [[|a c]|]; apply K.
Qed.

Lemma wp_get_current_price self symbol st Q :
  (forall r w,
      Q (Ok r) (mkState w (stdin st) (EvTicker (account_name self) symbol :: trace st))) ->
  wp (get_current_price self symbol) st Q.
Proof.
  intros H. unfold get_current_price.
  apply wp_try_except, wp_bind, wp_call. intros [resp|e] w; [|apply wp_ret, H].
  destruct (r_data resp) as [data|]; [|apply wp_ret, H].
  destruct (close data) as [c|]; [|apply wp_ret, H].
  apply wp_bind, wp_float_of; intros; apply wp_ret, H.
Qed.

Lemma wp_get_open_orders self symbol st Q :
  (forall resp w,
      Q (Ok resp)
        (mkState w (stdin st) (EvOpenOrders (account_name self) symbol :: trace st))) ->
  wp (get_open_orders self symbol) st Q.
Proof.
  intros H. unfold get_open_orders.
  apply wp_try_except, wp_bind, wp_call. intros [resp|e] w; [|apply wp_ret, H].
  destruct (response_is_empty resp || is_none (r_data resp)); apply wp_ret, H.
Qed.

Lemma wp_cancel_order self symbol order_id st Q :
  (forall resp w,
      Q (Ok resp)
        (mkState w (stdin st)
           (EvCancel (account_name self) symbol order_id :: trace st))) ->
  wp (cancel_order self symbol order_id) st Q.
Proof.
  intros H. unfold cancel_order.
  apply wp_try_except, wp_call. intros [resp|e] w; [|apply wp_ret]; apply H.
Qed.


(** The keyword arguments that [place_order] builds for an order. *)
Definition placed_params (symbol side orderType : string) (quantity : pyval)
  (price : option float) (params : order_params) : Prop :=
  p_symbol params = symbol /\ p_side params = side /\
  p_orderType params = orderType /\ p_force params = "gtc" /\
  (orderType = "limit" ->
     p_quantity params = Some (py_str quantity) /\
     exists p, price = Some p /\ p_price params = Some (py_str (VFloat p))) /\
  (orderType = "market" ->
     p_quantity params = Some (py_str quantity) /\ p_price params = None).

Lemma wp_place_order self symbol side orderType quantity price st Q :
  (forall resp w, Q (Ok resp) (mkState w (stdin st) (trace st))) ->
  (forall resp w params,
      placed_params symbol side orderType quantity price params ->
      Q (Ok resp)
        (mkState w (stdin st) (EvPlace (account_name self) params :: trace st))) ->
  wp (place_order self symbol side orderType quantity price) st Q.
Proof.
  intros Hquiet Hsent. unfold place_order.
  apply wp_try_except, wp_bind, wp_now. intros t w _. cbv beta iota.
  apply wp_bind, wp_lift.
  destruct (PyFloat.int_of_float (t * 1000)) as [ms|e]; [|apply wp_ret, Hquiet].
  cbv beta iota zeta. apply wp_bind.
  assert (Hcall : forall params,
             placed_params symbol side orderType quantity price params ->
             wp (call (EvPlace (account_name self) params)
                   (spot_place_order (client self) params))
               (mkState w (stdin st) (trace st))
               (fun r st' =>
                  match r with
                  | Ok a => Q (Ok a) st'
                  | Raise e => wp (ret (error_response (str_of_exn e) None)) st' Q
                  end)).
  { intros params Hp. apply wp_call. intros [resp|e] w'; cbn [stdin trace].
    - apply Hsent, Hp.
    - apply wp_ret, Hsent, Hp. }
  destruct (String.eqb_spec orderType "limit") as [->|Hnl].
  - destruct price as [p|]; [|apply wp_raise, wp_ret, Hquiet].
    destruct (negb (PyFloat.truthy p) || (p <=? 0)%float);
      [apply wp_raise, wp_ret, Hquiet|].
    apply wp_ret, Hcall. repeat split; try reflexivity; try discriminate.
    exists p. split; reflexivity.
  - destruct (String.eqb_spec orderType "market") as [->|Hnm].
    + apply wp_ret, Hcall. repeat split; try reflexivity; discriminate.
    + apply wp_ret, Hcall. repeat split; try reflexivity; intros; contradiction.
Qed.

Lemma wp_find_available coin data st Q :
  (forall a, Q (Ok a) st) -> (forall e, Q (Raise e) st) ->
  wp (find_available coin data) st Q.
Proof.
  intros H1 H2. induction data as [|a rest IH]; simpl.
  - apply wp_ret, H1.
  - destruct (String.eqb (coinName a) coin); [|exact IH].
    apply wp_float_of; intros; auto.
Qed.

End Logic.

(* ------------------------------------------------------------------ *)
(** ** [BitgetClient.place_order] *)

Lemma positive_float p :
  (0 <? p)%float = true -> (p <=? 0)%float = false /\ PyFloat.truthy p = true.
Proof.
  unfold PyFloat.truthy. rewrite ltb_spec, leb_spec, eqb_spec.
  change (Prim2SF 0) with (S754_zero false).
  destruct (Prim2SF p) as [s|s| |s m e]; try discriminate;
    destruct s; try discriminate; intros _; split; reflexivity.
Qed.

Section PlaceOrder.
Context {exchange : Exchange}.

(** C10. Every call of [place_order], whatever the side and the order
    type, builds its request with a [clientOrderId] that is the decimal
    text of the clock reading in milliseconds, [int(time.time() * 1000)]:
    whenever the exchange is contacted, the request carries it, and the
    exchange is contacted whenever the clock reading converts and the price
    of a limit order is positive.  A limit order whose price is missing or
    [<= 0] returns an error response with code [-1] and the exchange is not
    contacted. *)
Theorem place_order_client_order_id (self : BitgetClient)
  (symbol side orderType : string) (quantity : pyval) (price : option float)
  (st : state) :
  let '(t, w) := time_time (world st) in
  let '(r, st') := place_order self symbol side orderType quantity price st in
  (trace st' = trace st \/
   exists params ms,
     trace st' = EvPlace (account_name self) params :: trace st /\
     PyFloat.int_of_float (t * 1000) = Ok ms /\
     p_clientOrderId params = PyStr.str_of_Z ms /\
     p_symbol params = symbol /\ p_side params = side /\
     p_orderType params = orderType) /\
  (orderType = "limit" ->
   price = None \/ (exists p, price = Some p /\ (p <=? 0)%float = true) ->
   trace st' = trace st /\ world st' = w /\
   exists resp, r = Ok resp /\ r_code resp = Some (CodeInt (-1))) /\
  (forall ms,
     PyFloat.int_of_float (t * 1000) = Ok ms ->
     (orderType = "limit" -> exists p, price = Some p /\ (0 <? p)%float = true) ->
     exists params,
       trace st' = EvPlace (account_name self) params :: trace st /\
       p_clientOrderId params = PyStr.str_of_Z ms).
Proof.
  unfold place_order, try_except, bind, now, lift, call, ret, raise.
  destruct (time_time (world st)) as [t w].
  destruct (PyFloat.int_of_float (t * 1000)) as [ms|e] eqn:Hms; cbn [fst snd].
  - destruct (String.eqb_spec orderType "limit") as [->|Hnl].
    + destruct price as [p|].
      * destruct (negb (PyFloat.truthy p) || (p <=? 0)%float) eqn:Hbad; cbn [trace world].
        -- split; [left; reflexivity|]. split.
           ++ intros _ _. repeat split. eexists. split; reflexivity.
           ++ intros ms' _ Hp. destruct (Hp eq_refl) as (p' & [= <-] & Hpos).
              apply positive_float in Hpos as [H1 H2]. rewrite H1, H2 in Hbad.
              discriminate Hbad.
        -- destruct (spot_place_order _ _ _) as [[resp|e] w']; cbn [trace world];
             (split; [right; do 2 eexists; repeat split; reflexivity|]);
             (split;
              [intros _ [Hn|(p' & [= <-] & Hle)];
               [discriminate Hn | rewrite Hle, orb_true_r in Hbad; discriminate Hbad]
              |intros ms' [= <-] _; eexists; split; reflexivity]).
      * cbn [trace world]. split; [left; reflexivity|]. split.
        -- intros _ _. repeat split. eexists. split; reflexivity.
        -- intros ms' _ Hp. destruct (Hp eq_refl) as (p' & Hp' & _). discriminate Hp'.
    + destruct (String.eqb orderType "market");
        destruct (spot_place_order _ _ _) as [[resp|e] w']; cbn [trace world];
        (split; [right; do 2 eexists; repeat split; reflexivity|]);
        (split; [intros Hl; contradiction
                |intros ms' [= <-] _; eexists; split; reflexivity]).
  - cbn [trace world]. split; [left; reflexivity|]. split.
    + intros _ _. repeat split. eexists. split; reflexivity.
    + intros ms' Hms'. discriminate Hms'.
Qed.

End PlaceOrder.

(* ------------------------------------------------------------------ *)
(** ** Dictionaries *)

Module DictFacts.

Lemma keys_set {V : Type} (d : list (string * V)) k v k' :
  In k' (Dict.keys (Dict.set d k v)) <-> k' = k \/ In k' (Dict.keys d).
Proof.
  induction d as [|[k0 v0] d IH]; simpl.
  - intuition.
  - destruct (String.eqb_spec k k0) as [->|Hne]; simpl.
    + intuition.
    + rewrite IH. intuition.
Qed.


Lemma get_set_other {V : Type} (d : list (string * V)) k v k' :
  k' <> k -> Dict.get (Dict.set d k v) k' = Dict.get d k'.
Proof.
  intros Hne. induction d as [|[k0 v0] d IH]; simpl.
  - destruct (String.eqb_spec k' k); [contradiction|reflexivity].
  - destruct (String.eqb_spec k k0) as [->|Hne0]; simpl.
    + destruct (String.eqb_spec k' k0); [contradiction|reflexivity].
    + rewrite IH. reflexivity.
Qed.


Lemma get_of_entry {V : Type} (d : list (string * V)) k v :
  Dict.wf d -> In (k, v) d -> Dict.get d k = Some v.
Proof.
  unfold Dict.wf. induction d as [|[k0 v0] d IH]; simpl; [contradiction|].
  intros Hnd [[= -> ->]|H].
  - rewrite String.eqb_refl. reflexivity.
  - inversion Hnd as [|? ? Hnot Hnd']; subst.
    destruct (String.eqb_spec k k0) as [->|Hne].
    + exfalso. apply Hnot. apply in_map_iff. exists (k0, v). split; [reflexivity|exact H].
    + apply IH; assumption.
Qed.

Lemma values_set {V : Type} (P : V -> Prop) (d : list (string * V)) k v :
  P v -> Forall (fun kv => P (snd kv)) d ->
  Forall (fun kv => P (snd kv)) (Dict.set d k v).
Proof.
  intros Hv. induction 1 as [|[k0 v0] d H0 Hd IH]; simpl.
  - constructor; [exact Hv|constructor].
  - destruct (String.eqb k k0); constructor; assumption.
Qed.

Lemma wf_filter {V : Type} (f : string * V -> bool) (d : list (string * V)) :
  Dict.wf d -> Dict.wf (filter f d).
Proof.
  unfold Dict.wf, Dict.keys. induction d as [|kv d IH]; simpl; intros H; [constructor|].
  inversion H as [|? ? Hnot Hd]; subst.
  destruct (f kv); [|apply IH; exact Hd].
  simpl. constructor; [|apply IH; exact Hd].
  intros Hin. apply Hnot. apply in_map_iff in Hin as (x & Hx & Hin).
  apply filter_In in Hin as [Hin _]. apply in_map_iff. exists x. split; assumption.
Qed.

End DictFacts.

(* ------------------------------------------------------------------ *)
(** ** What the order methods send *)

Lemma first_match_two {A : Type} (a b : option A) :
  first_match [a; b] = match a with Some x => Some x | None => b end.
Proof. destruct a, b; reflexivity. Qed.


Section Executors.
Context {exchange : Exchange}.

(** One step of a computation. *)
Ltac wp_step :=
  cbv zeta;
  lazymatch goal with
  | |- wp (try_except _ _) _ _ => apply wp_try_except
  | |- wp (bind _ _) _ _ => apply wp_bind
  | |- wp (ret _) _ _ => apply wp_ret
  | |- wp (raise _) _ _ => apply wp_raise
  | |- wp (lift ?r) _ _ => apply wp_lift; destruct r eqn:?
  | |- wp (get_account_assets _ _) _ _ => apply wp_get_account_assets; intros ? ? ?
  | |- wp (get_current_price _ _) _ _ => apply wp_get_current_price; intros ? ?
  | |- wp (get_open_orders _ _) _ _ => apply wp_get_open_orders; intros ? ?
  | |- wp (cancel_order _ _ _) _ _ => apply wp_cancel_order; intros ? ?
  | |- wp (place_order _ _ _ _ _ _) _ _ =>
      apply wp_place_order; [intros ? ? | intros ? ? ? ?]
  | |- wp (find_available _ _) _ _ => apply wp_find_available; intros ?
  | |- wp (match ?x with _ => _ end) _ _ => destruct x eqn:?
  end;
  cbv beta iota.

Ltac wp_go := repeat wp_step; cbn [trace stdin world].

(** What an order method may add to the trace: calls of the account's own
    client and, among them, orders of the form [order]. *)
Definition executor_event (order : string -> order_params -> Prop) (e : event) : Prop :=
  match e with
  | EvPlace account params => order account params
  | EvInput _ _ | EvSummary _ _ => False
  | _ => True
  end.

Ltac trace_done :=
  repeat first [apply extends_refl | apply extends_cons; [cbn [executor_event]|]].

Lemma execute_buy_market_orders self name info inputs st :
  wp (execute_buy_market self name info inputs) st
    (fun r st' =>
       (exists o, r = Ok o) /\
       extends
         (executor_event (fun account params =>
            exists q,
              resolved_buy_amount inputs (config self) = Some q /\
              (q <=? 0)%float = false /\
              placed_params (cfg_symbol (config self)) "buy" "market"
                (VFloat q) None params))
         (trace st) (trace st')).
Proof.
  unfold execute_buy_market, resolved_buy_amount. rewrite first_match_two.
  wp_go; (split; [eexists; reflexivity|]); trace_done; eauto.
Qed.


(** The price that the limit methods settle on, given what the account's
    client reports as the market price. *)
Definition price_choice (inputs : user_inputs) (cfg : trading_config)
  (fallback : float) : float :=
  match ui_price inputs with
  | Some p => p
  | None =>
      match cfg_price cfg with
      | Some p => if (0 <? p)%float then p else fallback
      | None => fallback
      end
  end.

Lemma price_choice_inputs inputs cfg fallback p :
  ui_price inputs = Some p -> price_choice inputs cfg fallback = p.
Proof. unfold price_choice. intros ->. reflexivity. Qed.

Lemma price_choice_config inputs cfg fallback p :
  ui_price inputs = None -> cfg_price cfg = Some p -> (0 <? p)%float = true ->
  price_choice inputs cfg fallback = p.
Proof. unfold price_choice. intros -> -> ->. reflexivity. Qed.

Lemma price_choice_fallback inputs cfg fallback :
  ui_price inputs = None ->
  match cfg_price cfg with
  | Some p => (0 <? p)%float = false
  | None => True
  end ->
  price_choice inputs cfg fallback = fallback.
Proof.
  unfold price_choice. intros ->. destruct (cfg_price cfg); [intros ->|]; reflexivity.
Qed.

Ltac price_chosen :=
  first [ erewrite price_choice_inputs by eassumption
        | erewrite price_choice_config by eassumption
        | erewrite price_choice_fallback;
          [| eassumption
           | match goal with H : cfg_price _ = _ |- _ => rewrite H end;
             first [assumption | exact I] ] ].

Ltac split_or_false :=
  repeat match goal with
         | H : _ || _ = false |- _ => apply orb_false_iff in H as [? ?]
         end.

Ltac truediv_value :=
  repeat match goal with
         | H : py_truediv _ _ = Ok _ |- _ =>
             unfold py_truediv in H;
             match type of H with
             | (if ?c then _ else _) = _ => destruct c; inversion H; subst; clear H
             end
         end.

Ltac with_sell_quantity :=
  match goal with
  | H : formatted_sell_quantity (sell_quantity ?a ?p) = Ok ?s |- _ => exists a, p, s
  end.

Ltac with_market_price :=
  match goal with
  | r : option float |- _ => exists r
  | _ => exists None
  end.

Lemma execute_buy_limit_orders self name info inputs st :
  wp (execute_buy_limit self name info inputs) st
    (fun r st' =>
       (exists o, r = Ok o) /\
       extends
         (executor_event (fun account params =>
            exists q current_price,
              let p := price_choice inputs (config self) (price_or_zero current_price) in
              resolved_buy_amount inputs (config self) = Some q /\
              (q <=? 0)%float = false /\ (p <=? 0)%float = false /\
              placed_params (cfg_symbol (config self)) "buy" "limit"
                (VFloat (q / p)) (Some p) params))
         (trace st) (trace st')).
Proof.
  unfold execute_buy_limit, resolved_buy_amount. rewrite first_match_two.
  wp_go; (split; [eexists; reflexivity|]); trace_done; try exact I.
  all: truediv_value; split_or_false.
  all: eexists; with_market_price; cbv zeta; price_chosen.
  all: split; [reflexivity|split; [assumption|split; assumption]].
Qed.

Lemma execute_sell_market_orders self name info inputs st :
  wp (execute_sell_market self name info inputs) st
    (fun r st' =>
       (exists o, r = Ok o) /\
       extends
         (executor_event (fun account params =>
            exists available pct sent,
              resolved_sell_percentage inputs (config self) = Some pct /\
              (available <=? 0)%float = false /\
              (pct <=? 0)%float = false /\ (100 <? pct)%float = false /\
              formatted_sell_quantity (sell_quantity available pct) = Ok sent /\
              placed_params (cfg_symbol (config self)) "sell" "market"
                sent None params))
         (trace st) (trace st')).
Proof.
  unfold execute_sell_market, resolved_sell_percentage. rewrite first_match_two.
  wp_go; (split; [eexists; reflexivity|]); trace_done; try exact I.
  all: split_or_false; with_sell_quantity.
  all: split; [reflexivity|]; repeat (split; [assumption|]); assumption.
Qed.

Lemma execute_sell_limit_orders self name info inputs st :
  wp (execute_sell_limit self name info inputs) st
    (fun r st' =>
       (exists o, r = Ok o) /\
       extends
         (executor_event (fun account params =>
            exists available pct sent current_price,
              let p := price_choice inputs (config self) (price_or_zero current_price) in
              resolved_sell_percentage inputs (config self) = Some pct /\
              (available <=? 0)%float = false /\
              (pct <=? 0)%float = false /\ (100 <? pct)%float = false /\
              (p <=? 0)%float = false /\
              formatted_sell_quantity (sell_quantity available pct) = Ok sent /\
              placed_params (cfg_symbol (config self)) "sell" "limit"
                sent (Some p) params))
         (trace st) (trace st')).
Proof.
  unfold execute_sell_limit, resolved_sell_percentage. rewrite first_match_two.
  wp_go; (split; [eexists; reflexivity|]); trace_done; try exact I.
  all: split_or_false; with_sell_quantity; with_market_price; cbv zeta.
  all: split; [reflexivity|]; repeat (split; [assumption|]); assumption.
Qed.

Lemma wp_cancel_each self symbol orders : forall cancelled failed st Q,
  (forall counts st',
      extends (executor_event (fun _ _ => False)) (trace st) (trace st') ->
      Q (Ok counts) st') ->
  wp (cancel_each self symbol orders cancelled failed) st Q.
Proof.
  induction orders as [|order rest IH]; intros cancelled failed st Q H; simpl.
  - apply wp_ret, H, extends_refl.
  - apply wp_bind, wp_cancel_order. intros resp w. cbv beta iota.
    destruct (code_is_success resp); apply IH; intros counts st' E; apply H;
      apply extends_trans with (2 := E); cbn [trace];
      (apply extends_cons; [exact I|apply extends_refl]).
Qed.

Lemma execute_cancel_limits_events side self name info st :
  wp (execute_cancel_limits side self name info) st
    (fun r st' =>
       (exists o, r = Ok o) /\
       extends (executor_event (fun _ _ => False)) (trace st) (trace st')).
Proof.
  unfold execute_cancel_limits.
  apply wp_try_except. cbv zeta. apply wp_bind, wp_get_open_orders. intros resp w.
  cbv beta iota.
  assert (E0 : extends (executor_event (fun _ _ => False)) (trace st)
                 (EvOpenOrders (account_name (ai_client info))
                    (cfg_symbol (config self)) :: trace st)).
  { apply extends_cons; [exact I|apply extends_refl]. }
  destruct (negb (code_is_success resp) || is_none (r_data resp)).
  - apply wp_ret. split; [eexists; reflexivity|exact E0].
  - destruct (filter _ _) as [|o l].
    + apply wp_ret. split; [eexists; reflexivity|exact E0].
    + apply wp_bind, wp_cancel_each. intros counts st' E. apply wp_ret.
      split; [eexists; reflexivity|]. eapply extends_trans; [exact E0|exact E].
Qed.

(** *** Cancellation *)










(** *** The loop over the accounts *)


(** One round of the loop never raises: the outcome of [exec], or [None]
    in its place, is stored under the account's name. *)
Lemma process_account_step (exec : string -> account_info -> M outcome)
  name info results st :
  exists o st',
    try_except
      (bind (exec name info)
         (fun result => bind (sleep 0.3) (fun _ => ret (Dict.set results name result))))
      (fun _ => ret (Dict.set results name RNone)) st
    = (Ok (Dict.set results name o), st') /\
    (forall e st2, exec name info st = (Raise e, st2) -> o = RNone /\ st' = st2) /\
    (forall o', fst (exec name info st) = Ok o' -> o = o').
Proof.
  unfold try_except, bind, sleep, ret.
  destruct (exec name info st) as [[o|e] st1] eqn:E.
  - exists o. eexists. split; [reflexivity|]. split.
    + intros e st2 [=].
    + intros o' [= <-]. reflexivity.
  - exists RNone, st1. split; [reflexivity|]. split.
    + intros e' st2 [= <- <-]. split; reflexivity.
    + intros o' [=].
Qed.

Lemma process_accounts_total exec accounts : forall results st,
  exists res st',
    process_accounts exec accounts results st = (Ok res, st') /\
    (forall k, In k (Dict.keys res) <->
               In k (Dict.keys results) \/ In k (map fst accounts)) /\
    (forall k, ~ In k (map fst accounts) -> Dict.get res k = Dict.get results k).
Proof.
  induction accounts as [|[name info] rest IH]; intros results st.
  - exists results, st. split; [reflexivity|]. split; [simpl; intuition|reflexivity].
  - cbn [process_accounts]. unfold bind at 1.
    destruct (process_account_step exec name info results st) as (o & st1 & E & _).
    rewrite E.
    destruct (IH (Dict.set results name o) st1) as (res & st' & E' & Hk & Hg).
    exists res, st'. split; [exact E'|]. split.
    + intros k. rewrite Hk, DictFacts.keys_set. simpl. intuition.
    + intros k Hn. simpl in Hn. rewrite Hg by intuition.
      apply DictFacts.get_set_other. intuition.
Qed.



(** C5. The result map of a batch has a key only for accounts of
    [self.clients] whose [active] flag is true; an account whose flag is
    false never appears in it. *)
Theorem result_keys_are_active
  (exec : string -> account_info -> string -> user_inputs -> M outcome)
  (self : MultiAccountTrader) (action : string) (st : state)
  (results : list (string * outcome)) (st' : state) :
  Dict.wf (clients self) ->
  trade_all_accounts_with exec self action st = (Ok results, st') ->
  forall name,
    In name (Dict.keys results) ->
    exists info, Dict.get (clients self) name = Some info /\ ai_active info = true.
Proof.
  intros Hwf Hrun name Hin.
  assert (Hactive : In name (map fst (active_accounts_of self))).
  { unfold trade_all_accounts_with in Hrun. cbv zeta in Hrun.
    destruct (active_accounts_of self) as [|first others] eqn:Eact.
    { injection Hrun as <- _. contradiction Hin. }
    unfold bind at 1 in Hrun.
    destruct (collect_user_inputs self action (first :: others) st)
      as [[[inputs|]|e] st0]; try discriminate Hrun.
    - unfold bind at 1 in Hrun.
      destruct (process_accounts_total (fun n i => exec n i action inputs)
                  (first :: others) [] st0) as (res & st1 & E & Hk & _).
      rewrite E in Hrun. unfold bind, print_summary, ret in Hrun. cbn in Hrun.
      injection Hrun as <- _. apply Hk in Hin as [Hin|Hin]; [contradiction Hin|exact Hin].
    - injection Hrun as <- _. contradiction Hin. }
  apply in_map_iff in Hactive as ([k info] & Hk & Hentry). simpl in Hk. subst k.
  apply filter_In in Hentry as [Hentry Hact]. exists info. split; [|exact Hact].
  apply DictFacts.get_of_entry; assumption.
Qed.


(** *** Sell orders and the balance *)

Lemma get_account_assets_total self coin st :
  exists resp w c,
    get_account_assets self coin st =
    (Ok resp, mkState w (stdin st) (EvAssets (account_name self) c :: trace st)).
Proof.
  pose proof (wp_get_account_assets self coin st
                (fun r st' => exists resp w c,
                     (r, st') = (Ok resp, mkState w (stdin st)
                                   (EvAssets (account_name self) c :: trace st)))) as H.
  unfold wp in H. rewrite <- surjective_pairing in H. apply H.
  intros resp w c. exists resp, w, c. reflexivity.
Qed.

Lemma find_available_state coin data st :
  snd (find_available coin data st) = st.
Proof.
  induction data as [|a rest IH]; simpl; [reflexivity|].
  destruct (String.eqb (coinName a) coin); [|exact IH].
  unfold float_of. destruct (PyFloat.float_of_string (available a)); reflexivity.
Qed.

Lemma failure_is_not_counted (results : list (string * outcome)) name :
  Dict.get results name = Some RNone ->
  (success_count results < List.length results)%nat.
Proof.
  unfold success_count, Dict.values.
  induction results as [|[k o] rest IH]; simpl; [discriminate|].
  destruct (String.eqb name k).
  - intros [= ->]. simpl.
    pose proof (filter_length_le outcome_truthy (map snd rest)) as Hle.
    rewrite length_map in Hle. lia.
  - intros H. specialize (IH H).
    destruct (outcome_truthy o); simpl; lia.
Qed.

(** C8 (as amended). For both sell operations, on an account whose
    available balance of the base coin is [<= 0], only the balance is
    queried, no order is placed, and the outcome is [None]: the value that
    every failure yields, not a separate skipped outcome.  It is false for
    the batch summary, which therefore counts the account among the
    operations that did not succeed. *)
Theorem sell_without_balance (self : MultiAccountTrader) (name : string)
  (info : account_info) (inputs : user_inputs) (st : state)
  (assets : response (list asset)) (st1 : state) (data : list asset)
  (available_balance : float) :
  get_account_assets (ai_client info) (Some (cfg_coin (config self))) st
    = (Ok assets, st1) ->
  r_data assets = Some data ->
  fst (find_available (cfg_coin (config self)) data st1) = Ok available_balance ->
  (available_balance <=? 0)%float = true ->
  execute_sell_market self name info inputs st = (Ok RNone, st1) /\
  execute_sell_limit self name info inputs st = (Ok RNone, st1) /\
  (exists coin,
      trace st1 = EvAssets (account_name (ai_client info)) coin :: trace st) /\
  outcome_truthy RNone = false /\
  (forall results,
      Dict.get results name = Some RNone ->
      (success_count results < List.length results)%nat).
Proof.
  intros Hassets Hdata Hfind Hle.
  assert (Efind : find_available (cfg_coin (config self)) data st1
                  = (Ok available_balance, st1)).
  { rewrite (surjective_pairing (find_available _ _ _)), Hfind, find_available_state.
    reflexivity. }
  split; [|split; [|split; [|split]]].
  - unfold execute_sell_market, try_except, bind. cbv zeta.
    rewrite Hassets, Hdata. destruct data as [|a rest]; [reflexivity|].
    rewrite Efind, Hle. reflexivity.
  - unfold execute_sell_limit, try_except, bind. cbv zeta.
    rewrite Hassets, Hdata. destruct data as [|a rest]; [reflexivity|].
    rewrite Efind, Hle. reflexivity.
  - destruct (get_account_assets_total (ai_client info)
                (Some (cfg_coin (config self))) st) as (resp & w & c & E).
    rewrite E in Hassets. injection Hassets as _ <-. exists c. reflexivity.
  - reflexivity.
  - intros results. apply failure_is_not_counted.
Qed.






(** *** Resolved parameters *)


(** The limit price does not depend on the market price: it was typed in
    or it is configured and positive. *)
Definition price_settled (cfg : trading_config) (inputs : user_inputs) : Prop :=
  ui_price inputs <> None \/
  exists p, cfg_price cfg = Some p /\ (p <=? 0)%float = false.



Lemma wp_weaken {A : Type} (m : M A) st (P P' : event -> Prop)
  (R R' : result A -> Prop) :
  (forall e, P e -> P' e) -> (forall r, R r -> R' r) ->
  wp m st (fun r st' => R r /\ extends P (trace st) (trace st')) ->
  wp m st (fun r st' => R' r /\ extends P' (trace st) (trace st')).
Proof.
  intros HP HR. apply wp_mono. intros r st' [H1 H2]. split; [auto|].
  eapply extends_mono; eassumption.
Qed.

Lemma executor_event_mono (order order' : string -> order_params -> Prop) e :
  (forall account params, order account params -> order' account params) ->
  executor_event order e -> executor_event order' e.
Proof. intros H. destruct e; simpl; auto. Qed.


(** *** The questions asked before the loop *)

Lemma wp_input p st Q :
  (forall line rest,
      stdin st = line :: rest ->
      Q (Ok line) (mkState (world st) rest (EvInput p line :: trace st))) ->
  (stdin st = [] -> Q (Raise EOFError) st) ->
  wp (input p) st Q.
Proof.
  unfold wp, input. intros H1 H2. destruct (stdin st) as [|line rest]; cbn; auto.
Qed.

(** What [collect_user_inputs] adds to the trace: price queries and console
    replies.  Unless it ends the batch early, no reply was rejected. *)
Definition collect_event (continues : bool) (e : event) : Prop :=
  match e with
  | EvTicker _ _ => True
  | EvInput p reply => continues = true -> rejected_reply p reply = false
  | _ => False
  end.

Definition continues {A : Type} (r : result (option A)) : bool :=
  match r with
  | Ok None => false
  | _ => true
  end.

Ltac reply_accepted :=
  intros _; unfold rejected_reply;
  repeat match goal with
         | H : reply_value _ _ = _ |- _ => rewrite H
         end;
  try assumption; try reflexivity.

Ltac collect_done :=
  cbn [continues];
  repeat first
    [ apply extends_refl
    | apply extends_cons;
      [cbn [collect_event]; first [exact I | discriminate 1 | reply_accepted]|] ].

Ltac wp_ask :=
  first
    [ lazymatch goal with
      | |- wp (input _) _ _ => apply wp_input; [intros ? ? _|intros _]; cbv beta iota
      end
    | wp_step ].

Ltac know_action :=
  repeat match goal with
         | H : _ && _ = true |- _ => apply andb_true_iff in H as [? ?]
         end;
  repeat match goal with
         | H : String.eqb ?a _ = true |- _ => apply String.eqb_eq in H; subst a
         end.

Ltac settled :=
  let inputs := fresh "inputs" in
  let Hr := fresh "Hr" in
  let Hl := fresh "Hl" in
  intros inputs Hr Hl; try discriminate Hr; injection Hr as <-;
  first
    [ left; cbn; discriminate
    | right;
      match goal with
      | |- context [cfg_price ?c] =>
          destruct (cfg_price c) as [?p|] eqn:?;
          [eexists; split; [reflexivity|assumption] | discriminate]
      end
    | exfalso; know_action;
      repeat match goal with
             | H : String.eqb _ _ = false |- _ => rewrite H in Hl
             end;
      cbn in Hl; discriminate Hl ].

Lemma wp_collect_user_inputs self action active st :
  wp (collect_user_inputs self action active) st
    (fun r st' =>
       extends (collect_event (continues r)) (trace st) (trace st') /\
       forall inputs,
         r = Ok (Some inputs) ->
         (String.eqb action "buy_limit" || String.eqb action "sell_limit") = true ->
         price_settled (config self) inputs).
Proof.
  unfold collect_user_inputs, first_client, price_settled. cbv zeta.
  repeat wp_ask; cbn [trace stdin world].
  all: split; [collect_done | settled].
Qed.


(** *** The loop and the batch *)

Lemma wp_process_accounts (exec : string -> account_info -> M outcome)
  (P : event -> Prop) (R : outcome -> Prop) accounts :
  (forall name info st0,
      wp (exec name info) st0
        (fun r st' => (forall o, r = Ok o -> R o) /\ extends P (trace st0) (trace st'))) ->
  R RNone ->
  forall results st,
    Forall (fun kv => R (snd kv)) results ->
    wp (process_accounts exec accounts results) st
      (fun r st' =>
         (exists res, r = Ok res /\ Forall (fun kv => R (snd kv)) res) /\
         extends P (trace st) (trace st')).
Proof.
  intros Hexec HR. induction accounts as [|[name info] rest IH]; intros results st Hres.
  - apply wp_ret. split; [eauto|apply extends_refl].
  - cbn [process_accounts]. apply wp_bind, wp_try_except, wp_bind.
    eapply wp_mono; [|apply Hexec]. intros [o|e] st1 [Ho Hext]; cbv beta iota.
    + apply wp_bind, wp_sleep. intros w. cbv beta iota. apply wp_ret. cbv beta iota.
      eapply wp_mono; [|apply IH].
      * intros r st' [Hr Hext']. split; [exact Hr|].
        eapply extends_trans; [exact Hext|exact Hext'].
      * apply DictFacts.values_set; [apply Ho; reflexivity|exact Hres].
    + apply wp_ret. cbv beta iota. eapply wp_mono; [|apply IH].
      * intros r st' [Hr Hext']. split; [exact Hr|].
        eapply extends_trans; [exact Hext|exact Hext'].
      * apply DictFacts.values_set; [exact HR|exact Hres].
Qed.

(** A batch is the questions, then the loop, then the summary line. *)
Lemma trade_all_accounts_run self action st
  (P : user_inputs -> event -> Prop) (R : user_inputs -> outcome -> Prop) :
  (forall inputs name info st0,
      ((String.eqb action "buy_limit" || String.eqb action "sell_limit") = true ->
       price_settled (config self) inputs) ->
      wp (execute_action self name info action inputs) st0
        (fun r st' =>
           (forall o, r = Ok o -> R inputs o) /\
           extends (P inputs) (trace st0) (trace st'))) ->
  (forall inputs, R inputs RNone) ->
  exists evs0 evs1 evs2,
    trace (snd (trade_all_accounts self action st)) = (evs2 ++ evs1 ++ evs0 ++ trace st)%list /\
    (active_accounts_of self = [] /\
     fst (trade_all_accounts self action st) = Ok [] /\
     evs0 = [] /\ evs1 = [] /\ evs2 = []
     \/
     exists asked st0,
       collect_user_inputs self action (active_accounts_of self) st = (asked, st0) /\
       Forall (collect_event (continues asked)) evs0 /\
       match asked with
       | Raise e => fst (trade_all_accounts self action st) = Raise e /\
                    evs1 = [] /\ evs2 = []
       | Ok None => fst (trade_all_accounts self action st) = Ok [] /\
                    evs1 = [] /\ evs2 = []
       | Ok (Some inputs) =>
           exists results,
             fst (trade_all_accounts self action st) = Ok results /\
             Forall (fun kv => R inputs (snd kv)) results /\
             Forall (P inputs) evs1 /\
             evs2 = [EvSummary (success_count results) (List.length results)]
       end).
Proof.
  intros Hexec HR.
  remember (trade_all_accounts self action st) as run eqn:Erun.
  unfold trade_all_accounts, trade_all_accounts_with in Erun. cbv zeta in Erun.
  destruct (active_accounts_of self) as [|first others] eqn:Eact.
  { subst run. exists [], [], []. split; [reflexivity|]. left. repeat split; reflexivity. }
  unfold bind at 1 in Erun.
  pose proof (wp_collect_user_inputs self action (first :: others) st) as Hcol.
  unfold wp in Hcol.
  destruct (collect_user_inputs self action (first :: others) st) as [asked st0] eqn:Ecol.
  cbn [fst snd] in Hcol. destruct Hcol as [Hext0 Hset].
  apply extends_iff in Hext0 as (evs0 & Htr0 & Hall0).
  destruct asked as [[inputs|]|e].
  - unfold bind at 1 in Erun.
    pose proof (wp_process_accounts
                  (fun name info => execute_action self name info action inputs)
                  (P inputs) (R inputs) (first :: others)
                  (fun name info st1 => Hexec inputs name info st1 (Hset inputs eq_refl))
                  (HR inputs) [] st0 (Forall_nil _)) as Hloop.
    unfold wp in Hloop.
    destruct (process_accounts _ (first :: others) [] st0) as [r st1].
    cbn [fst snd] in Hloop. destruct Hloop as [(res & -> & Hres) Hext1].
    apply extends_iff in Hext1 as (evs1 & Htr1 & Hall1).
    unfold bind, print_summary, ret in Erun. subst run. cbn [fst snd trace].
    exists evs0, evs1, [EvSummary (success_count res) (List.length res)].
    split; [rewrite Htr1, Htr0; reflexivity|]. right.
    exists (Ok (Some inputs)), st0. split; [reflexivity|]. split; [exact Hall0|].
    exists res. repeat split; assumption.
  - unfold ret in Erun. subst run. cbn [fst snd].
    exists evs0, [], []. split; [exact Htr0|]. right.
    exists (Ok None), st0. split; [reflexivity|]. split; [exact Hall0|].
    repeat split; reflexivity.
  - subst run. cbn [fst snd]. exists evs0, [], []. split; [exact Htr0|]. right.
    exists (Raise e), st0. split; [reflexivity|]. split; [exact Hall0|].
    repeat split; reflexivity.
Qed.


(** *** Parameters out of range *)










Lemma execute_action_events self name info action inputs st :
  wp (execute_action self name info action inputs) st
    (fun r st' =>
       (exists o, r = Ok o) /\
       extends (executor_event (fun _ _ => True)) (trace st) (trace st')).
Proof.
  assert (Hany : forall (order : string -> order_params -> Prop) e,
             executor_event order e -> executor_event (fun _ _ => True) e).
  { intros order e. apply executor_event_mono. auto. }
  unfold execute_action.
  destruct (String.eqb action "buy_market").
  { eapply wp_weaken; [apply Hany| |apply execute_buy_market_orders]; auto. }
  destruct (String.eqb action "buy_limit").
  { eapply wp_weaken; [apply Hany| |apply execute_buy_limit_orders]; auto. }
  destruct (String.eqb action "sell_market").
  { eapply wp_weaken; [apply Hany| |apply execute_sell_market_orders]; auto. }
  destruct (String.eqb action "sell_limit").
  { eapply wp_weaken; [apply Hany| |apply execute_sell_limit_orders]; auto. }
  destruct (String.eqb action "cancel_buy_limits").
  { eapply wp_weaken; [apply Hany| |apply execute_cancel_limits_events]; auto. }
  destruct (String.eqb action "cancel_sell_limits").
  { eapply wp_weaken; [apply Hany| |apply execute_cancel_limits_events]; auto. }
  apply wp_ret. split; [eexists; reflexivity|apply extends_refl].
Qed.





End Executors.

(* ================================================================== *)
(** * Runs on the scripted exchange *)
(* ================================================================== *)

Module Scenarios.
Import Demo.

(** The scenarios of the specification. *)
Example scenario_market_buy_two_accounts :
  let '(r, st') := trade_all_accounts pair "buy_market" calm in
  r = Ok [("a1", ROrder "1001"); ("a2", ROrder "1001")] /\
  exists p1 p2,
    trace st' = [EvSummary 2 2; EvPlace "a2" p2; EvPlace "a1" p1] /\
    p_quantity p1 = Some (FloatRepr 50) /\ p_quantity p2 = Some (FloatRepr 50).
Proof. vm_compute. split; [reflexivity|]. do 2 eexists. repeat split. Qed.

Example scenario_market_sell_small_balance :
  let '(r, st') := trade_all_accounts seller "sell_market" calm in
  r = Ok [("a1", ROrder "1001")] /\
  exists p,
    trace st' = [EvSummary 1 1; EvPlace "a1" p; EvTicker "a1" "BTCUSDT_SPBL";
                 EvAssets "a1" "BTC"] /\
    p_quantity p = Some (Text "0.001").
Proof. vm_compute. split; [reflexivity|]. eexists. repeat split. Qed.

Example scenario_limit_sell_without_price :
  let '(r, st') := trade_all_accounts seller "sell_limit"
                     (start (market "0.002" None [] true) [""]) in
  r = Ok [] /\
  trace st' = [EvInput (PromptPrice None) ""; EvTicker "a1" "BTCUSDT_SPBL"].
Proof. vm_compute. split; reflexivity. Qed.

Example scenario_nothing_to_cancel :
  let '(r, st') := trade_all_accounts seller "cancel_buy_limits" calm in
  r = Ok [("a1", RBool true)] /\
  trace st' = [EvSummary 1 1; EvOpenOrders "a1" "BTCUSDT_SPBL"].
Proof. vm_compute. split; reflexivity. Qed.

Example scenario_inactive_account :
  Dict.keys
    match fst (trade_all_accounts trio "buy_market" calm) with
    | Ok results => results
    | Raise _ => []
    end = ["a1"; "a3"].
Proof. vm_compute. reflexivity. Qed.

(** A limit buy sends the quotient of the amount by the price as it is
    computed. *)
Example scenario_limit_buy_quantity :
  let '(r, st') := execute_buy_limit priced "a1" a1 no_inputs calm in
  r = Ok (ROrder "1001") /\
  exists p,
    trace st' = [EvPlace "a1" p] /\
    p_quantity p = Some (FloatRepr (50 / 61000)) /\
    p_price p = Some (FloatRepr 61000).
Proof. vm_compute. split; [reflexivity|]. eexists. repeat split. Qed.

(** ** The properties at work *)


Lemma trio_names_differ : Dict.wf (clients trio).
Proof. unfold Dict.wf. vm_compute. repeat constructor; simpl; intuition discriminate. Qed.


Lemma result_keys_are_active_witness :
  exists info, Dict.get (clients trio) "a3" = Some info /\ ai_active info = true.
Proof.
  apply (result_keys_are_active (execute_action trio) trio "buy_market" calm
           [("a1", ROrder "1001"); ("a3", ROrder "1001")]
           (snd (trade_all_accounts trio "buy_market" calm))).
  - exact trio_names_differ.
  - vm_compute. reflexivity.
  - simpl. right. left. reflexivity.
Defined.


Lemma sell_without_balance_witness :
  execute_sell_market seller "a1" a1 no_inputs empty_wallet = (Ok RNone, queried) /\
  execute_sell_limit seller "a1" a1 no_inputs empty_wallet = (Ok RNone, queried) /\
  (exists coin, trace queried = EvAssets "a1" coin :: trace empty_wallet) /\
  outcome_truthy RNone = false /\
  (forall results,
      Dict.get results "a1" = Some RNone ->
      (success_count results < List.length results)%nat).
Proof.
  apply (sell_without_balance seller "a1" a1 no_inputs empty_wallet
           (mkResponse (Some (CodeStr "00000")) (Some "success")
              (Some [mkAsset "USDT" "250.0"; mkAsset "BTC" "0"]))
           queried [mkAsset "USDT" "250.0"; mkAsset "BTC" "0"] 0%float).
  - reflexivity.
  - reflexivity.
  - vm_compute. reflexivity.
  - reflexivity.
Defined.



(** No balance and a refused order have the same outcome, and the summary
    reports the account without balance as not successful. *)
Lemma no_balance_is_reported_as_a_failure :
  fst (execute_sell_market seller "a1" a1 no_inputs empty_wallet) = Ok RNone /\
  fst (execute_sell_market seller "a1" a1 no_inputs refused) = Ok RNone /\
  fst (execute_sell_limit priced "a1" a1 no_inputs empty_wallet) = Ok RNone /\
  fst (execute_sell_limit priced "a1" a1 no_inputs refused) = Ok RNone /\
  fst (trade_all_accounts seller "sell_market" empty_wallet) = Ok [("a1", RNone)] /\
  trace (snd (trade_all_accounts seller "sell_market" empty_wallet))
    = [EvSummary 0 1; EvAssets "a1" "BTC"].
Proof. vm_compute. repeat split. Qed.


End Scenarios.

(* ================================================================== *)
(** * Further properties of the order methods and of a batch *)
(* ================================================================== *)

Section Conduct.
Context {exchange : Exchange}.

Ltac wp_step_with place_rule :=
  cbv zeta;
  lazymatch goal with
  | |- wp (try_except _ _) _ _ => apply wp_try_except
  | |- wp (bind _ _) _ _ => apply wp_bind
  | |- wp (ret _) _ _ => apply wp_ret
  | |- wp (raise _) _ _ => apply wp_raise
  | |- wp (lift ?r) _ _ => apply wp_lift; destruct r eqn:?
  | |- wp (get_account_assets _ _) _ _ => apply wp_get_account_assets; intros ? ? ?
  | |- wp (get_current_price _ _) _ _ => apply wp_get_current_price; intros ? ?
  | |- wp (get_open_orders _ _) _ _ => apply wp_get_open_orders; intros ? ?
  | |- wp (cancel_order _ _ _) _ _ => apply wp_cancel_order; intros ? ?
  | |- wp (place_order _ _ _ _ _ _) _ _ => place_rule
  | |- wp (find_available _ _) _ _ => apply wp_find_available; intros ?
  | |- wp (match ?x with _ => _ end) _ _ => destruct x eqn:?
  end;
  cbv beta iota.

Ltac wp_step :=
  wp_step_with ltac:(apply wp_place_order; [intros ? ? | intros ? ? ? ?]).

Ltac wp_go := repeat wp_step; cbn [trace stdin world].

(** A call of the exchange library on behalf of [account]. *)
Definition own_call (account : string) (e : event) : Prop :=
  match e with
  | EvAssets a _ | EvTicker a _ | EvPlace a _ | EvOpenOrders a _ | EvCancel a _ _ =>
      a = account
  | EvInput _ _ | EvSummary _ _ => False
  end.

(** What an order method leaves behind: an outcome, the console as it was,
    and calls on behalf of the account only. *)
Definition contained (account : string) (st : state) (r : result outcome)
  (st' : state) : Prop :=
  (exists o, r = Ok o) /\ stdin st' = stdin st /\
  extends (own_call account) (trace st) (trace st').

Ltac contained_done :=
  split; [eexists; reflexivity|];
  split; [reflexivity|];
  repeat first [apply extends_refl | apply extends_cons; [reflexivity|]].

Lemma cancel_each_contained self symbol orders : forall cancelled failed st Q,
  (forall counts st',
      stdin st' = stdin st ->
      extends (own_call (account_name self)) (trace st) (trace st') ->
      Q (Ok counts) st') ->
  wp (cancel_each self symbol orders cancelled failed) st Q.
Proof.
  induction orders as [|order rest IH]; intros cancelled failed st Q H; simpl.
  - apply wp_ret, H; [reflexivity|apply extends_refl].
  - apply wp_bind, wp_cancel_order. intros resp w. cbv beta iota.
    destruct (code_is_success resp); apply IH; intros counts st' Hin E; apply H;
      try exact Hin;
      apply extends_trans with (2 := E); cbn [trace];
      (apply extends_cons; [reflexivity|apply extends_refl]).
Qed.

Lemma execute_action_contained self name info action inputs st :
  wp (execute_action self name info action inputs) st
    (contained (account_name (ai_client info)) st).
Proof.
  unfold execute_action, contained.
  destruct (String.eqb action "buy_market").
  { unfold execute_buy_market. wp_go; contained_done. }
  destruct (String.eqb action "buy_limit").
  { unfold execute_buy_limit. wp_go; contained_done. }
  destruct (String.eqb action "sell_market").
  { unfold execute_sell_market. wp_go; contained_done. }
  destruct (String.eqb action "sell_limit").
  { unfold execute_sell_limit. wp_go; contained_done. }
  assert (Hcancel : forall side,
             wp (execute_cancel_limits side self name info) st
               (fun r st' =>
                  (exists o, r = Ok o) /\ stdin st' = stdin st /\
                  extends (own_call (account_name (ai_client info)))
                    (trace st) (trace st'))).
  { intros side. unfold execute_cancel_limits.
    apply wp_try_except. cbv zeta. apply wp_bind, wp_get_open_orders. intros resp w.
    cbv beta iota.
    destruct (negb (code_is_success resp) || is_none (r_data resp));
      [apply wp_ret; cbn [trace stdin]; contained_done|].
    destruct (filter _ _) as [|o l]; [apply wp_ret; cbn [trace stdin]; contained_done|].
    apply wp_bind, cancel_each_contained. intros counts st' Hin E. apply wp_ret.
    split; [eexists; reflexivity|]. split; [exact Hin|].
    apply extends_trans with (2 := E). cbn [trace].
    apply extends_cons; [reflexivity|apply extends_refl]. }
  destruct (String.eqb action "cancel_buy_limits"); [apply Hcancel|].
  destruct (String.eqb action "cancel_sell_limits"); [apply Hcancel|].
  apply wp_ret. contained_done.
Qed.


(** The number of orders sent to the exchange so far. *)
Definition placements (t : list event) : nat :=
  List.length (filter is_placement t).

(** [place_order] answers with its own error response when it does not
    reach the exchange. *)
Lemma wp_place_order_answer self symbol side orderType quantity price st Q :
  (forall msg w, Q (Ok (error_response msg None)) (mkState w (stdin st) (trace st))) ->
  (forall resp w params,
      Q (Ok resp)
        (mkState w (stdin st) (EvPlace (account_name self) params :: trace st))) ->
  wp (place_order self symbol side orderType quantity price) st Q.
Proof.
  intros Hquiet Hsent. unfold place_order.
  apply wp_try_except, wp_bind, wp_now. intros t w _. cbv beta iota.
  apply wp_bind, wp_lift.
  destruct (PyFloat.int_of_float (t * 1000)) as [ms|e]; [|apply wp_ret, Hquiet].
  cbv beta iota zeta. apply wp_bind.
  assert (Hcall : forall params,
             wp (call (EvPlace (account_name self) params)
                   (spot_place_order (client self) params))
               (mkState w (stdin st) (trace st))
               (fun r st' =>
                  match r with
                  | Ok a => Q (Ok a) st'
                  | Raise e => wp (ret (error_response (str_of_exn e) None)) st' Q
                  end)).
  { intros params. apply wp_call. intros [resp|e] w'; cbn [stdin trace].
    - apply Hsent.
    - apply wp_ret, Hsent. }
  destruct (String.eqb orderType "limit").
  - destruct price as [p|]; [|apply wp_raise, wp_ret, Hquiet].
    destruct (negb (PyFloat.truthy p) || (p <=? 0)%float);
      [apply wp_raise, wp_ret, Hquiet|].
    apply wp_ret, Hcall.
  - destruct (String.eqb orderType "market"); apply wp_ret, Hcall.
Qed.

Ltac wp_count :=
  repeat wp_step_with
    ltac:(apply wp_place_order_answer; [intros ? ? | intros ? ? ?]);
  cbn [trace stdin world].

(** At most one order more, and exactly one more behind an order id. *)
Definition single_order (st : state) (r : result outcome) (st' : state) : Prop :=
  (placements (trace st') <= placements (trace st) + 1)%nat /\
  forall order_id,
    r = Ok (ROrder order_id) ->
    placements (trace st') = (placements (trace st) + 1)%nat.

Lemma classify_error_response msg :
  classify_placement (error_response msg None) = RNone.
Proof. reflexivity. Qed.

Ltac single_order_done :=
  unfold single_order, placements; cbn [trace filter is_placement List.length];
  rewrite ?classify_error_response;
  split; [lia | intros ? ?; first [discriminate | lia]].

Lemma cancel_each_quiet self symbol orders : forall cancelled failed st Q,
  (forall counts st', placements (trace st') = placements (trace st) ->
                      Q (Ok counts) st') ->
  wp (cancel_each self symbol orders cancelled failed) st Q.
Proof.
  induction orders as [|order rest IH]; intros cancelled failed st Q H; simpl.
  - apply wp_ret, H. reflexivity.
  - apply wp_bind, wp_cancel_order. intros resp w. cbv beta iota.
    destruct (code_is_success resp); apply IH; intros counts st' E; apply H;
      rewrite E; reflexivity.
Qed.

Lemma execute_action_single_order self name info action inputs st :
  wp (execute_action self name info action inputs) st (single_order st).
Proof.
  unfold execute_action.
  destruct (String.eqb action "buy_market").
  { unfold execute_buy_market. wp_count; single_order_done. }
  destruct (String.eqb action "buy_limit").
  { unfold execute_buy_limit. wp_count; single_order_done. }
  destruct (String.eqb action "sell_market").
  { unfold execute_sell_market. wp_count; single_order_done. }
  destruct (String.eqb action "sell_limit").
  { unfold execute_sell_limit. wp_count; single_order_done. }
  assert (Hcancel : forall side,
             wp (execute_cancel_limits side self name info) st (single_order st)).
  { intros side. unfold execute_cancel_limits.
    apply wp_try_except. cbv zeta. apply wp_bind, wp_get_open_orders. intros resp w.
    cbv beta iota.
    destruct (negb (code_is_success resp) || is_none (r_data resp));
      [apply wp_ret; cbn [trace stdin]; single_order_done|].
    destruct (filter _ _) as [|o l]; [apply wp_ret; cbn [trace stdin]; single_order_done|].
    apply wp_bind, cancel_each_quiet. intros counts st' E. apply wp_ret.
    unfold single_order. rewrite E. cbn [trace].
    unfold placements; cbn [filter is_placement List.length].
    split; [lia | intros ? ?; discriminate]. }
  destruct (String.eqb action "cancel_buy_limits"); [apply Hcancel|].
  destruct (String.eqb action "cancel_sell_limits"); [apply Hcancel|].
  apply wp_ret. single_order_done.
Qed.


Lemma placements_app evs t :
  placements (evs ++ t) = (placements evs + placements t)%nat.
Proof. unfold placements. rewrite filter_app, length_app. reflexivity. Qed.

Lemma extends_quiet (P : event -> Prop) old new :
  (forall e, P e -> is_placement e = false) ->
  extends P old new -> placements new = placements old.
Proof.
  intros HP E. induction E as [|e t He _ IH]; [reflexivity|].
  unfold placements in *. cbn [filter]. rewrite (HP e He). exact IH.
Qed.

Lemma process_accounts_placements (exec : string -> account_info -> M outcome)
  accounts :
  (forall name info st0, wp (exec name info) st0 (single_order st0)) ->
  forall results st,
    wp (process_accounts exec accounts results) st
      (fun _ st' =>
         (placements (trace st') <= placements (trace st) + List.length accounts)%nat).
Proof.
  intros Hexec. induction accounts as [|[name info] rest IH]; intros results st.
  - apply wp_ret. simpl. lia.
  - cbn [process_accounts]. apply wp_bind, wp_try_except, wp_bind.
    eapply wp_mono; [|apply Hexec]. intros [o|e] st1 [Hle _]; cbv beta iota.
    + apply wp_bind, wp_sleep. intros w. cbv beta iota. apply wp_ret. cbv beta iota.
      eapply wp_mono; [|apply IH]. cbn [trace List.length]. intros _ st' H. cbv beta in H. lia.
    + apply wp_ret. cbv beta iota.
      eapply wp_mono; [|apply IH]. cbn [List.length]. intros _ st' H. cbv beta in H. lia.
Qed.

Lemma collect_event_is_quiet b e : collect_event b e -> is_placement e = false.
Proof. destruct e; simpl; try contradiction; reflexivity. Qed.

Lemma trade_all_accounts_placements self action st :
  wp (trade_all_accounts self action) st
    (fun _ st' =>
       (placements (trace st')
        <= placements (trace st) + List.length (active_accounts_of self))%nat).
Proof.
  unfold trade_all_accounts, trade_all_accounts_with. cbv zeta.
  destruct (active_accounts_of self) as [|first others] eqn:Eact.
  { apply wp_ret. lia. }
  apply wp_bind. eapply wp_mono; [|apply wp_collect_user_inputs].
  intros asked st0 [Hext _]. cbv beta in Hext.
  apply extends_quiet in Hext; [|intros e; apply collect_event_is_quiet].
  destruct asked as [[inputs|]|e]; cbv beta iota.
  - apply wp_bind.
    eapply wp_mono;
      [|apply (process_accounts_placements
                 (fun name info => execute_action self name info action inputs)
                 (first :: others)
                 (fun name info st1 =>
                    execute_action_single_order self name info action inputs st1))].
    intros [results|e] st1 H; cbv beta iota in H |- *.
    + unfold wp, bind, print_summary, ret. cbn [fst snd trace].
      unfold placements in *. cbn [filter is_placement]. lia.
    + lia.
  - apply wp_ret. lia.
  - lia.
Qed.

(** The side and the type of the orders of an action; the two cancel
    actions, and any other text, have none. *)
Definition order_kind (action : string) : option (string * string) :=
  if String.eqb action "buy_market" then Some ("buy", "market")
  else if String.eqb action "buy_limit" then Some ("buy", "limit")
  else if String.eqb action "sell_market" then Some ("sell", "market")
  else if String.eqb action "sell_limit" then Some ("sell", "limit")
  else None.

(** An order of the kind of [action] on the configured pair: a market order
    carries a quantity and no price, a limit order both. *)
Definition order_of_action (action : string) (cfg : trading_config)
  (params : order_params) : Prop :=
  exists side orderType,
    order_kind action = Some (side, orderType) /\
    p_symbol params = cfg_symbol cfg /\
    p_side params = side /\ p_orderType params = orderType /\
    p_force params = "gtc" /\
    p_quantity params <> None /\
    (orderType = "market" -> p_price params = None) /\
    (orderType = "limit" -> p_price params <> None).

Lemma placed_market symbol side quantity price params cfg action :
  order_kind action = Some (side, "market") ->
  symbol = cfg_symbol cfg ->
  placed_params symbol side "market" quantity price params ->
  order_of_action action cfg params.
Proof.
  intros Hk -> (Hs & Hsd & Ht & Hf & _ & Hm).
  destruct (Hm eq_refl) as [Hq Hp].
  exists side, "market".
  split; [exact Hk|]. split; [exact Hs|]. split; [exact Hsd|]. split; [exact Ht|].
  split; [exact Hf|]. split; [rewrite Hq; discriminate|].
  split; [intros _; exact Hp|discriminate].
Qed.

Lemma placed_limit symbol side quantity price params cfg action :
  order_kind action = Some (side, "limit") ->
  symbol = cfg_symbol cfg ->
  placed_params symbol side "limit" quantity price params ->
  order_of_action action cfg params.
Proof.
  intros Hk -> (Hs & Hsd & Ht & Hf & Hl & _).
  destruct (Hl eq_refl) as (Hq & p & _ & Hp).
  exists side, "limit".
  split; [exact Hk|]. split; [exact Hs|]. split; [exact Hsd|]. split; [exact Ht|].
  split; [exact Hf|]. split; [rewrite Hq; discriminate|].
  split; [discriminate|intros _; rewrite Hp; discriminate].
Qed.

Lemma execute_action_order_kind self name info action inputs st :
  wp (execute_action self name info action inputs) st
    (fun r st' =>
       (exists o, r = Ok o) /\
       extends (executor_event (fun _ params =>
                  order_of_action action (config self) params))
         (trace st) (trace st')).
Proof.
  unfold execute_action.
  destruct (String.eqb_spec action "buy_market") as [->|_].
  { eapply wp_weaken; [| |apply execute_buy_market_orders]; [|auto].
    intros e. apply executor_event_mono. intros _ params (q & _ & _ & Hp).
    eapply placed_market; [reflexivity|reflexivity|exact Hp]. }
  destruct (String.eqb_spec action "buy_limit") as [->|_].
  { eapply wp_weaken; [| |apply execute_buy_limit_orders]; [|auto].
    intros e. apply executor_event_mono. intros _ params (q & cp & _ & _ & _ & Hp).
    eapply placed_limit; [reflexivity|reflexivity|exact Hp]. }
  destruct (String.eqb_spec action "sell_market") as [->|_].
  { eapply wp_weaken; [| |apply execute_sell_market_orders]; [|auto].
    intros e. apply executor_event_mono.
    intros _ params (a & pct & sent & _ & _ & _ & _ & _ & Hp).
    eapply placed_market; [reflexivity|reflexivity|exact Hp]. }
  destruct (String.eqb_spec action "sell_limit") as [->|_].
  { eapply wp_weaken; [| |apply execute_sell_limit_orders]; [|auto].
    intros e. apply executor_event_mono.
    intros _ params (a & pct & sent & cp & _ & _ & _ & _ & _ & _ & Hp).
    eapply placed_limit; [reflexivity|reflexivity|exact Hp]. }
  destruct (String.eqb action "cancel_buy_limits").
  { eapply wp_weaken; [| |apply execute_cancel_limits_events]; [|auto].
    intros e. apply executor_event_mono. intros _ _ []. }
  destruct (String.eqb action "cancel_sell_limits").
  { eapply wp_weaken; [| |apply execute_cancel_limits_events]; [|auto].
    intros e. apply executor_event_mono. intros _ _ []. }
  apply wp_ret. split; [eexists; reflexivity|apply extends_refl].
Qed.

(** X2. Every order of a batch is an order of the action's own side and type
    on the configured pair, in force until cancelled: a market order carries a
    quantity and no price, a limit order a quantity and a price.  A cancel
    action, or an action with another name, places no order. *)
Theorem batch_orders_are_of_the_action (self : MultiAccountTrader)
  (action : string) (st : state) :
  exists evs,
    trace (snd (trade_all_accounts self action st)) = (evs ++ trace st)%list /\
    (forall account params,
        In (EvPlace account params) evs ->
        order_of_action action (config self) params) /\
    (order_kind action = None -> forall e, In e evs -> is_placement e = false).
Proof.
  destruct (trade_all_accounts_run self action st
              (fun _ => executor_event (fun _ params =>
                          order_of_action action (config self) params))
              (fun _ _ => True))
    as (evs0 & evs1 & evs2 & Htr & Hcases).
  { intros inputs name info st0 _.
    eapply wp_mono; [|apply execute_action_order_kind].
    intros r st' [_ Hext]. split; [auto|exact Hext]. }
  { auto. }
  exists (evs2 ++ evs1 ++ evs0)%list. split; [rewrite Htr, !app_assoc; reflexivity|].
  assert (Hplace : forall account params,
             In (EvPlace account params) (evs2 ++ evs1 ++ evs0)%list ->
             order_of_action action (config self) params).
  { intros account params Hin.
    destruct Hcases as [(_ & _ & -> & -> & ->)|(asked & st0 & _ & Hall0 & Hrest)];
      [contradiction Hin|].
    rewrite Forall_forall in Hall0.
    apply in_app_or in Hin as [Hin|Hin]; [|apply in_app_or in Hin as [Hin|Hin]].
    - destruct asked as [[inputs|]|e].
      + destruct Hrest as (results & _ & _ & _ & ->).
        destruct Hin as [Hin|[]]; discriminate Hin.
      + destruct Hrest as (_ & _ & ->). contradiction Hin.
      + destruct Hrest as (_ & _ & ->). contradiction Hin.
    - destruct asked as [[inputs|]|e].
      + destruct Hrest as (results & _ & _ & Hall1 & _).
        rewrite Forall_forall in Hall1. exact (Hall1 _ Hin).
      + destruct Hrest as (_ & -> & _). contradiction Hin.
      + destruct Hrest as (_ & -> & _). contradiction Hin.
    - contradiction (Hall0 _ Hin). }
  split; [exact Hplace|].
  intros Hnone e Hin. destruct e; try reflexivity.
  destruct (Hplace _ _ Hin) as (side & orderType & Hk & _).
  rewrite Hnone in Hk. discriminate Hk.
Qed.

(** *** The result map *)

Lemma keys_set_fresh {V : Type} (d : list (string * V)) k v :
  ~ In k (Dict.keys d) -> Dict.keys (Dict.set d k v) = (Dict.keys d ++ [k])%list.
Proof.
  induction d as [|[k' v'] d IH]; intros Hk; [reflexivity|].
  simpl in *. destruct (String.eqb_spec k k') as [->|Hne].
  - exfalso. apply Hk. left. reflexivity.
  - simpl. rewrite IH; [reflexivity|]. intros Hin. apply Hk. right. exact Hin.
Qed.

Lemma process_accounts_keys (exec : string -> account_info -> M outcome)
  accounts : forall results st res st',
  NoDup (Dict.keys results ++ map fst accounts) ->
  process_accounts exec accounts results st = (Ok res, st') ->
  Dict.keys res = (Dict.keys results ++ map fst accounts)%list.
Proof.
  induction accounts as [|[name info] rest IH]; intros results st res st' Hnd Hrun.
  - injection Hrun as <- _. simpl. rewrite app_nil_r. reflexivity.
  - cbn [process_accounts] in Hrun. unfold bind at 1 in Hrun.
    destruct (process_account_step exec name info results st) as (o & st1 & E & _).
    rewrite E in Hrun. simpl in Hnd.
    assert (Hfresh : ~ In name (Dict.keys results)).
    { apply NoDup_remove_2 in Hnd. intros Hin. apply Hnd, in_or_app. left. exact Hin. }
    apply IH in Hrun.
    + rewrite Hrun, keys_set_fresh by exact Hfresh. rewrite <- app_assoc. reflexivity.
    + rewrite keys_set_fresh by exact Hfresh. rewrite <- app_assoc. exact Hnd.
Qed.

(** X3. When a batch gets as far as the loop, its result map has exactly one
    entry for every active account, in the order of [self.clients]; otherwise
    the map is empty. *)
Theorem batch_result_has_every_active_account
  (exec : string -> account_info -> string -> user_inputs -> M outcome)
  (self : MultiAccountTrader) (action : string) (st : state)
  (results : list (string * outcome)) (st' : state) :
  Dict.wf (clients self) ->
  trade_all_accounts_with exec self action st = (Ok results, st') ->
  (results = [] \/
   Dict.keys results = Dict.keys (active_accounts_of self)) /\
  (forall inputs st0,
      collect_user_inputs self action (active_accounts_of self) st
        = (Ok (Some inputs), st0) ->
      Dict.keys results = Dict.keys (active_accounts_of self) /\
      List.length results = List.length (active_accounts_of self)).
Proof.
  intros Hwf Hrun.
  assert (Hnd : NoDup (Dict.keys (active_accounts_of self))).
  { exact (DictFacts.wf_filter (fun entry => ai_active (snd entry)) _ Hwf). }
  unfold trade_all_accounts_with in Hrun. cbv zeta in Hrun.
  destruct (active_accounts_of self) as [|first others] eqn:Eact.
  { injection Hrun as <- _. split; [left; reflexivity|].
    intros inputs st0 _. split; reflexivity. }
  unfold bind at 1 in Hrun.
  destruct (collect_user_inputs self action (first :: others) st)
    as [[[inputs|]|e] st0]; try discriminate Hrun.
  - unfold bind at 1 in Hrun.
    destruct (process_accounts _ (first :: others) [] st0) as [[res|e] st1] eqn:E;
      [|discriminate Hrun].
    unfold bind, print_summary, ret in Hrun. cbn in Hrun. injection Hrun as <- _.
    apply process_accounts_keys in E; [|exact Hnd].
    cbn [Dict.keys map app] in E.
    assert (Hlen : List.length res = List.length (first :: others)).
    { rewrite <- (length_map fst res), <- (length_map fst (first :: others)).
      f_equal. exact E. }
    split; [right; exact E|]. intros _ _ _. split; [exact E|exact Hlen].
  - injection Hrun as <- _. split; [left; reflexivity|].
    intros inputs st1 Heq. discriminate Heq.
Qed.


(** X4. One call of [execute_action] sends at most one order to the
    exchange, and an order id is returned only when exactly one was sent. *)
Theorem execute_action_sends_one_order (self : MultiAccountTrader) (name : string)
  (info : account_info) (action : string) (inputs : user_inputs) (st : state) :
  let '(r, st') := execute_action self name info action inputs st in
  exists evs,
    trace st' = (evs ++ trace st)%list /\
    (placements evs <= 1)%nat /\
    (forall order_id, r = Ok (ROrder order_id) -> placements evs = 1%nat).
Proof.
  pose proof (execute_action_contained self name info action inputs st) as Hc.
  pose proof (execute_action_single_order self name info action inputs st) as Hs.
  unfold wp, contained, single_order in Hc, Hs.
  destruct (execute_action self name info action inputs st) as [r st'].
  cbn [fst snd] in Hc, Hs. destruct Hc as (_ & _ & Hext). destruct Hs as [Hle Hone].
  apply extends_iff in Hext as (evs & Htr & _). exists evs.
  rewrite Htr, placements_app in Hle, Hone.
  split; [exact Htr|]. split; [lia|].
  intros order_id Hr. specialize (Hone order_id Hr). lia.
Qed.

(** X5. A batch sends at most one order for each active account. *)
Theorem batch_sends_one_order_per_account (self : MultiAccountTrader)
  (action : string) (st : state) :
  exists evs,
    trace (snd (trade_all_accounts self action st)) = (evs ++ trace st)%list /\
    (placements evs <= List.length (active_accounts_of self))%nat.
Proof.
  pose proof (trade_all_accounts_placements self action st) as Hle.
  destruct (trade_all_accounts_run self action st
              (fun _ _ => True) (fun _ _ => True))
    as (evs0 & evs1 & evs2 & Htr & _).
  { intros inputs name info st0 _. unfold wp. split; [auto|].
    pose proof (execute_action_events self name info action inputs st0) as H.
    unfold wp in H. destruct H as [_ H].
    eapply extends_mono; [|exact H]. auto. }
  { auto. }
  unfold wp in Hle. exists (evs2 ++ evs1 ++ evs0)%list.
  rewrite <- !app_assoc. split; [exact Htr|].
  rewrite Htr in Hle. rewrite !app_assoc in Hle. rewrite placements_app in Hle.
  rewrite <- !app_assoc in Hle. lia.
Qed.

(** *** The console *)

(** The question [p] is put for [action] only when the configuration leaves
    the parameter open. *)
Definition question_of (action : string) (cfg : trading_config) (p : prompt) : Prop :=
  match p with
  | PromptAmount =>
      cfg_buy_amount cfg = None /\ (action = "buy_market" \/ action = "buy_limit")
  | PromptPercentage =>
      cfg_sell_percentage cfg = None /\
      (action = "sell_market" \/ action = "sell_limit")
  | PromptPrice _ =>
      (action = "buy_limit" \/ action = "sell_limit") /\
      match cfg_price cfg with
      | Some price => (price <=? 0)%float = true
      | None => True
      end
  end.

(** From a trace and a console to a later trace and what is left of the
    console: price queries, and questions of [Q], each answered by the next
    line. *)
Inductive asks (Q : prompt -> Prop) (t0 : list event) (l0 : list string)
  : list event -> list string -> Prop :=
| asks_refl : asks Q t0 l0 t0 l0
| asks_ticker account symbol t l :
    asks Q t0 l0 t l -> asks Q t0 l0 (EvTicker account symbol :: t) l
| asks_input p line t l :
    Q p -> asks Q t0 l0 t (line :: l) -> asks Q t0 l0 (EvInput p line :: t) l.

Definition is_question (Q : prompt -> Prop) (e : event) : Prop :=
  match e with
  | EvTicker _ _ => True
  | EvInput p _ => Q p
  | _ => False
  end.

Lemma asks_extends Q t0 l0 t l :
  asks Q t0 l0 t l -> extends (is_question Q) t0 t.
Proof.
  induction 1; [apply extends_refl| |]; apply extends_cons; simpl; auto.
Qed.

Lemma asks_nothing Q t0 l0 t l :
  (forall p, ~ Q p) -> asks Q t0 l0 t l -> l = l0.
Proof.
  intros Hno H. induction H as [|account symbol t l _ IH|p line t l Hq _ _];
    [reflexivity|exact IH|contradiction (Hno p Hq)].
Qed.

(** The console after [k] lines at most were read from it. *)
Definition lines_read (k : nat) (st st' : state) : Prop :=
  exists n, (n <= k)%nat /\ stdin st' = skipn n (stdin st).

Definition asked (action : string) (cfg : trading_config) (st : state)
  {A : Type} (r : result A) (st' : state) : Prop :=
  asks (question_of action cfg) (trace st) (stdin st) (trace st') (stdin st') /\
  lines_read 2 st st' /\
  forall e, r = Raise e ->
            e = EOFError /\ stdin st' = [] /\ (List.length (stdin st) < 2)%nat.

Ltac wp_ask :=
  first
    [ lazymatch goal with
      | |- wp (input _) _ _ =>
          apply wp_input; [intros ? ? ?|intros ?]; cbv beta iota
      end
    | wp_step ].

Lemma is_none_true {A : Type} (o : option A) : is_none o = true -> o = None.
Proof. destruct o; [discriminate|reflexivity]. Qed.

Ltac know_action :=
  repeat match goal with
         | H : _ && _ = true |- _ => apply andb_true_iff in H as [? ?]
         end;
  repeat match goal with
         | H : String.eqb ?a _ = true |- _ => apply String.eqb_eq in H; subst a
         end;
  repeat match goal with
         | H : is_none _ = true |- _ => apply is_none_true in H
         end.

Ltac question_done :=
  cbn [question_of];
  first
    [ split; [assumption | auto]
    | split;
      [ auto
      | match goal with
        | H : match cfg_price ?c with _ => _ end = true |- _ =>
            destruct (cfg_price c); [exact H | exact I]
        end ] ].

Ltac console_lines :=
  unfold lines_read; cbn [stdin] in *;
  repeat match goal with
         | H : ?rest = _ :: _ |- _ => is_var rest; subst rest
         | H : ?rest = [] |- _ => is_var rest; subst rest
         end;
  repeat match goal with
         | H : stdin ?st = _ |- _ => rewrite H in *
         end.

Lemma collect_user_inputs_asked self action first others st :
  wp (collect_user_inputs self action (first :: others)) st
    (asked action (config self) st).
Proof.
  unfold collect_user_inputs, first_client. cbv zeta. destruct first as [n0 i0].
  repeat wp_ask.
  all: know_action.
  all: unfold asked; cbn [trace stdin world]; split; [|split].
  all: try (intros ? Hraise; first [discriminate Hraise | injection Hraise as <-]).
  all: console_lines.
  all: try solve
         [ repeat first
             [ apply asks_refl
             | apply asks_ticker
             | apply asks_input; [question_done|] ] ].
  all: try solve [ first [ exists 0%nat; split; [lia|reflexivity]
                         | exists 1%nat; split; [lia|reflexivity]
                         | exists 2%nat; split; [lia|reflexivity] ] ].
  all: try solve [ cbn [stdin List.length]; repeat split; try reflexivity; lia ].
Qed.


(** The loop leaves the console alone and never raises, when the action
    does. *)
Lemma process_accounts_contained (exec : string -> account_info -> M outcome)
  (P : event -> Prop) accounts :
  (forall name info st0,
      wp (exec name info) st0
        (fun _ st' => stdin st' = stdin st0 /\ extends P (trace st0) (trace st'))) ->
  forall results st,
    wp (process_accounts exec accounts results) st
      (fun r st' =>
         (exists res, r = Ok res) /\ stdin st' = stdin st /\
         extends P (trace st) (trace st')).
Proof.
  intros Hexec. induction accounts as [|[name info] rest IH]; intros results st.
  - apply wp_ret. split; [eauto|]. split; [reflexivity|apply extends_refl].
  - cbn [process_accounts]. apply wp_bind, wp_try_except, wp_bind.
    eapply wp_mono; [|apply Hexec]. intros [o|e] st1 [Hin Hext]; cbv beta iota.
    + apply wp_bind, wp_sleep. intros w. cbv beta iota. apply wp_ret. cbv beta iota.
      eapply wp_mono; [|apply IH]. cbn [trace stdin].
      intros r st' (Hr & Hin' & Hext'). split; [exact Hr|].
      split; [congruence|]. eapply extends_trans; eassumption.
    + apply wp_ret. cbv beta iota. eapply wp_mono; [|apply IH].
      intros r st' (Hr & Hin' & Hext'). split; [exact Hr|].
      split; [congruence|]. eapply extends_trans; eassumption.
Qed.

Definition not_a_reply (e : event) : Prop :=
  match e with
  | EvInput _ _ => False
  | _ => True
  end.

Lemma own_call_not_a_reply account e : own_call account e -> not_a_reply e.
Proof. destruct e; simpl; auto. Qed.

(** A batch: the questions, then a loop that keeps off the console. *)
Lemma trade_all_accounts_console self action st :
  wp (trade_all_accounts self action) st
    (fun r st' =>
       exists t0 l0,
         asks (question_of action (config self)) (trace st) (stdin st) t0 l0 /\
         stdin st' = l0 /\ extends not_a_reply t0 (trace st') /\
         lines_read 2 st st' /\
         forall e, r = Raise e ->
                   e = EOFError /\ stdin st' = [] /\ (List.length (stdin st) < 2)%nat).
Proof.
  assert (Hstay : lines_read 2 st st).
  { exists 0%nat. split; [lia|reflexivity]. }
  unfold trade_all_accounts, trade_all_accounts_with. cbv zeta.
  destruct (active_accounts_of self) as [|first others] eqn:Eact.
  { apply wp_ret. exists (trace st), (stdin st).
    split; [apply asks_refl|]. split; [reflexivity|]. split; [apply extends_refl|].
    split; [exact Hstay|]. intros e He. discriminate He. }
  apply wp_bind. eapply wp_mono; [|apply collect_user_inputs_asked].
  intros answer st0 (Hasks & Hread & Hraise). cbv beta in *.
  destruct answer as [[inputs|]|e]; cbv beta iota.
  - apply wp_bind.
    eapply wp_mono;
      [|apply (process_accounts_contained
                 (fun name info => execute_action self name info action inputs)
                 not_a_reply (first :: others))].
    + intros r st1 ((res & ->) & Hin & Hext). cbv beta iota.
      unfold wp, bind, print_summary, ret. cbn [fst snd trace stdin].
      exists (trace st0), (stdin st0). split; [exact Hasks|].
      split; [exact Hin|]. split.
      * apply extends_cons; [exact I|exact Hext].
      * split; [|intros e He; discriminate He].
        destruct Hread as (n & Hn & Hl). exists n. split; [exact Hn|].
        cbn [stdin]. congruence.
    + intros name info st1. eapply wp_mono; [|apply execute_action_contained].
      intros r st2 (_ & Hin & Hext). split; [exact Hin|].
      eapply extends_mono; [|exact Hext]. intros e. apply own_call_not_a_reply.
  - apply wp_ret. exists (trace st0), (stdin st0). split; [exact Hasks|].
    split; [reflexivity|]. split; [apply extends_refl|]. split; [exact Hread|].
    intros e He. discriminate He.
  - exists (trace st0), (stdin st0). split; [exact Hasks|].
    split; [reflexivity|]. split; [apply extends_refl|]. split; [exact Hread|].
    intros e' He. injection He as <-. apply (Hraise e). reflexivity.
Qed.

(** X6. A batch reads the console for the parameters that the configuration
    leaves open and for nothing else: the amount for a buy without a
    configured amount, the percentage for a sell without a configured
    percentage, the price for a limit order without a configured price above
    zero.  It reads two lines at most, however many accounts there are, and
    none when nothing is open. *)
Theorem batch_asks_for_open_parameters_only (self : MultiAccountTrader)
  (action : string) (st : state) :
  let st' := snd (trade_all_accounts self action st) in
  (exists evs,
      trace st' = (evs ++ trace st)%list /\
      forall p reply,
        In (EvInput p reply) evs -> question_of action (config self) p) /\
  (exists n, (n <= 2)%nat /\ stdin st' = skipn n (stdin st)) /\
  ((forall p, ~ question_of action (config self) p) -> stdin st' = stdin st).
Proof.
  cbv zeta. pose proof (trade_all_accounts_console self action st) as H.
  unfold wp in H. destruct H as (t0 & l0 & Hasks & Hl & Hext & Hread & _).
  split; [|split].
  - pose proof (asks_extends _ _ _ _ _ Hasks) as H0.
    apply extends_iff in H0 as (evs0 & -> & Hall0).
    apply extends_iff in Hext as (evs1 & Htr & Hall1).
    exists (evs1 ++ evs0)%list. rewrite <- app_assoc. split; [exact Htr|].
    intros p reply Hin. rewrite Forall_forall in Hall0, Hall1.
    apply in_app_or in Hin as [Hin|Hin].
    + contradiction (Hall1 _ Hin).
    + exact (Hall0 _ Hin).
  - exact Hread.
  - intros Hno. rewrite Hl. eapply asks_nothing; eassumption.
Qed.


End Conduct.

(* ================================================================== *)
(** * Quantities at the edges *)
(* ================================================================== *)

Module QuantityEdges.
Import FloatFacts.
Local Open Scope float_scope.

(** Half a unit of the seventh decimal: the nearest float lies below it. *)
Lemma half_unit_is_below :
  Prim2SF 5e-8 = S754_finite false 7555786372591432 (-77) /\
  (2 * 7555786372591432 * 10 ^ 7 < 2 ^ 77)%Z.
Proof. split; [reflexivity|]. vm_compute. reflexivity. Qed.

Lemma round_half_even_zero n d :
  (0 <= n)%Z -> (2 * n < d)%Z -> PyFloat.round_half_even n d = 0%Z.
Proof.
  intros Hn Hd. unfold PyFloat.round_half_even.
  rewrite Z.div_small, Z.mod_small by lia.
  destruct (Z.compare_spec (2 * n) d); [lia|reflexivity|lia].
Qed.

(** A positive float that is at most [5e-8] prints as zero. *)
Lemma scaled7_tiny m e :
  valid_binary (S754_finite false m e) = true ->
  SFleb (S754_finite false m e) (S754_finite false 7555786372591432 (-77)) = true ->
  PyFloat.scaled7 m e = 0%Z /\ (e < -52)%Z.
Proof.
  intros V H.
  apply SFleb_finite_inv in H as (He & Hm & _); [|exact V|reflexivity].
  split; [|lia]. unfold PyFloat.scaled7.
  destruct e as [|p|k]; try lia.
  apply round_half_even_zero; [lia|].
  change (-77 - Z.neg k)%Z with (Z.pos k - 77)%Z in Hm.
  assert (H77 : (2 ^ Z.pos k = 2 ^ 77 * 2 ^ (Z.pos k - 77))%Z).
  { rewrite <- Z.pow_add_r by lia. f_equal. lia. }
  pose proof (proj2 half_unit_is_below) as Hc.
  assert (0 < 2 ^ (Z.pos k - 77))%Z by (apply Z.pow_pos_nonneg; lia).
  rewrite H77. nia.
Qed.

(** X8. A positive quantity of at most [5e-8], half a unit of the seventh
    decimal, is formatted as ["0"]: a sell of so small a quantity sends the
    quantity zero to the exchange. *)
Theorem tiny_quantity_is_sent_as_zero (quantity : float) :
  (0 <? quantity) = true -> (quantity <=? 5e-8) = true ->
  format_quantity_for_api (QNum quantity) = "0" /\
  formatted_sell_quantity quantity = Ok (VStr "0").
Proof.
  rewrite ltb_spec, leb_spec. intros Hpos Hle.
  pose proof (Prim2SF_valid quantity) as V.
  rewrite (proj1 half_unit_is_below) in Hle.
  change (Prim2SF 0) with (S754_zero false) in Hpos.
  assert (Hfmt : format_quantity_for_api (QNum quantity) = "0"
                 /\ (1 <=? quantity) = false).
  { rewrite leb_spec. change (Prim2SF 1) with (S754_finite false 4503599627370496 (-52)).
    unfold format_quantity_for_api, PyFloat.format_7f.
    destruct (Prim2SF quantity) as [s|s| |s m e]; try discriminate;
      destruct s; try discriminate.
    destruct (scaled7_tiny m e V Hle) as [-> He].
    split; [destruct (quantity <? 0.0001); reflexivity|].
    unfold SFleb, SFcompare.
    destruct (Z.compare_spec (-52) e); [lia|lia|reflexivity]. }
  destruct Hfmt as [Hfmt Hone]. split; [exact Hfmt|].
  unfold formatted_sell_quantity. rewrite Hone, Hfmt. reflexivity.
Qed.

Lemma tiny_quantity_is_sent_as_zero_witness :
  format_quantity_for_api (QNum 4e-8) = "0" /\
  formatted_sell_quantity 4e-8 = Ok (VStr "0").
Proof. apply (tiny_quantity_is_sent_as_zero 4e-8); reflexivity. Defined.


Lemma one_le_finite m e :
  valid_binary (S754_finite false m e) = true ->
  SFleb (S754_finite false 4503599627370496 (-52)) (S754_finite false m e) = true ->
  (-52 <= e)%Z /\ (2 ^ 52 <= Z.pos m * 2 ^ (e + 52))%Z.
Proof.
  intros V H. apply SFleb_finite_inv in H as (He & Hm & _); [|reflexivity|exact V].
  split; [exact He|]. replace (e + 52)%Z with (e - -52)%Z by lia. exact Hm.
Qed.

(** X9. From one unit on, a finite quantity is sent as its integer part: an
    integer of at least one that is not above the quantity and less than one
    unit below it.  The conversion fails for the infinite quantity only. *)
Theorem whole_quantity_is_truncated (quantity : float) :
  ((1 <=? quantity) = true -> (quantity <? infinity) = true ->
   exists m e z,
     Prim2SF quantity = S754_finite false m e /\
     formatted_sell_quantity quantity = Ok (VInt z) /\
     (1 <= z)%Z /\
     (z * 2 ^ Z.max 0 (- e) <= Z.pos m * 2 ^ Z.max 0 e
      < (z + 1) * 2 ^ Z.max 0 (- e))%Z) /\
  ((exists e, formatted_sell_quantity quantity = Raise e) <-> quantity = infinity).
Proof.
  split.
  - rewrite leb_spec, ltb_spec. intros Hone Hfin.
    pose proof (Prim2SF_valid quantity) as V.
    unfold formatted_sell_quantity, PyFloat.int_of_float. rewrite leb_spec.
    change (Prim2SF 1) with (S754_finite false 4503599627370496 (-52)) in *.
    change (Prim2SF infinity) with (S754_infinity false) in Hfin.
    destruct (Prim2SF quantity) as [s|s| |s m e]; try discriminate;
      destruct s; try discriminate.
    rewrite Hone. destruct (one_le_finite m e V Hone) as [He Hm].
    exists m, e. eexists. split; [reflexivity|]. split; [reflexivity|].
    destruct e as [|p|k].
    + change (Z.max 0 (- 0)) with 0%Z. change (Z.max 0 0) with 0%Z.
      rewrite Z.pow_0_r, !Z.mul_1_r. lia.
    + replace (Z.max 0 (- Z.pos p)) with 0%Z by lia.
      replace (Z.max 0 (Z.pos p)) with (Z.pos p) by lia.
      assert (0 < 2 ^ Z.pos p)%Z by (apply Z.pow_pos_nonneg; lia).
      rewrite Z.pow_0_r, !Z.mul_1_r. nia.
    + replace (Z.max 0 (- Z.neg k)) with (Z.pos k) by lia.
      replace (Z.max 0 (Z.neg k)) with 0%Z by lia.
      rewrite Z.pow_0_r, Z.mul_1_r.
      assert (Hk : (0 < 2 ^ Z.pos k)%Z) by (apply Z.pow_pos_nonneg; lia).
      assert (Hge : (2 ^ Z.pos k <= Z.pos m)%Z).
      { assert (E : (2 ^ 52 = 2 ^ Z.pos k * 2 ^ (Z.neg k + 52))%Z).
        { rewrite <- Z.pow_add_r by lia. f_equal. lia. }
        assert (0 < 2 ^ (Z.neg k + 52))%Z by (apply Z.pow_pos_nonneg; lia).
        rewrite E in Hm. nia. }
      pose proof (Z.div_mod (Z.pos m) (2 ^ Z.pos k) ltac:(lia)) as Hdm.
      pose proof (Z.mod_pos_bound (Z.pos m) (2 ^ Z.pos k) Hk) as Hmod.
      split; [|nia].
      apply Z.div_le_lower_bound; lia.
  - split.
    + intros [e He]. unfold formatted_sell_quantity, PyFloat.int_of_float in He.
      rewrite leb_spec in He.
      change (Prim2SF 1) with (S754_finite false 4503599627370496 (-52)) in He.
      rewrite <- (SF2Prim_Prim2SF quantity).
      destruct (Prim2SF quantity) as [s|s| |s m ex]; try discriminate He.
      * destruct s; [discriminate He|reflexivity].
      * destruct (SFleb _ _); discriminate He.
    + intros ->. eexists. reflexivity.
Qed.

Example whole_quantity_examples :
  formatted_sell_quantity 1.75 = Ok (VInt 1) /\
  formatted_sell_quantity 250.5 = Ok (VInt 250) /\
  formatted_sell_quantity 0.99999999 = Ok (VStr "1") /\
  formatted_sell_quantity nan = Ok (VStr "nan").
Proof. repeat split; vm_compute; reflexivity. Qed.

End QuantityEdges.

(* ================================================================== *)
(** * Start-up: [initialize_clients] *)
(* ================================================================== *)

(** The keyword arguments of [spot_get_order_details]; [None] is a key that
    is not passed. *)
Record details_params : Type := mkDetailsParams {
  d_symbol : string;
  d_orderId : option string;
  d_clientOid : option string
}.

(** The keyword arguments of [spot_account_transfer]. *)
Record transfer_params : Type := mkTransferParams {
  t_coin : string;
  t_amount : pytext;
  t_fromType : string;
  t_toType : string
}.

(** The keyword arguments of [spot_account_inner_transfer]. *)
Record inner_transfer_params : Type := mkInnerTransferParams {
  it_coin : string;
  it_amount : pytext;
  it_toUid : string
}.

(** The rest of [pybitget] that the program uses: the constructor [Client],
    given the API key, the secret and the passphrase, and the three calls
    behind [get_order_details], [transfer_funds] and [inner_transfer].  Like
    the other calls, each may raise. *)
Class Library (exchange : Exchange) : Type := {
  pybitget_Client : string -> string -> string -> World -> result Client * World;
  OrderDetails : Type;
  Transfer : Type;
  spot_get_order_details :
    Client -> details_params -> World -> result (response OrderDetails) * World;
  spot_account_transfer :
    Client -> transfer_params -> World -> result (response Transfer) * World;
  spot_account_inner_transfer :
    Client -> inner_transfer_params -> World -> result (response Transfer) * World
}.

Section Setup.
Context {exchange : Exchange} {library : Library exchange}.

Notation "x <- m ;; k" := (bind m (fun x => k))
  (at level 61, m at next level, right associativity).

(** A call of the library that the trace has no event for. *)
Definition call_quietly {A : Type} (f : World -> result A * World) : M A :=
  fun st =>
    let '(r, w) := f (world st) in
    (r, mkState w (stdin st) (trace st)).





(** An entry of the list [config["accounts"]]; [None] is a missing key. *)
Record account_config : Type := mkAccountConfig {
  ac_name : option string;
  ac_api_key : option string;
  ac_api_secret : option string;
  ac_passphrase : option string
}.

(** [BitgetClient.__init__]: it builds the library's client and raises
    again what the constructor raises. *)
Definition BitgetClient_init (api_key api_secret_key passphrase account_name : string)
  : M BitgetClient :=
  try_except
    (c <- call_quietly (pybitget_Client api_key api_secret_key passphrase) ;;
     ret (mkBitgetClient account_name c))
    (fun e => raise e).

(** [f"account_{len(self.clients) + 1}"] *)
Definition default_account_name (clients : list (string * account_info)) : string :=
  "account_" ++ PyStr.str_of_Z (Z.of_nat (List.length clients) + 1).

(** The loop of [initialize_clients] over [config["accounts"]]:
    [clients] is [self.clients] so far. *)
Fixpoint initialize_accounts (accounts : list account_config)
  (clients : list (string * account_info)) : M (list (string * account_info)) :=
  match accounts with
  | [] => ret clients
  | account :: rest =>
      clients' <-
        try_except
          (let account_name :=
             match ac_name account with
             | Some n => n
             | None => default_account_name clients
             end in
           match ac_api_key account, ac_api_secret account, ac_passphrase account with
           | Some api_key, Some api_secret, Some passphrase =>
               client <- BitgetClient_init api_key api_secret passphrase account_name ;;
               assets <- get_account_assets client None ;;
               if is_none (r_data assets) then ret clients
               else ret (Dict.set clients account_name (mkAccount client true))
           | _, _, _ => ret clients
           end)
          (fun _ => ret clients) ;;
      initialize_accounts rest clients'
  end.

(** [initialize_clients], from the empty [self.clients]; [None] stands for
    [sys.exit(1)], when no account could be initialised. *)
Definition initialize_clients (accounts : list account_config)
  : M (option (list (string * account_info))) :=
  clients <- initialize_accounts accounts [] ;;
  match clients with
  | [] => ret None
  | _ :: _ => ret (Some clients)
  end.

Definition has_credentials (account : account_config) : bool :=
  negb (is_none (ac_api_key account)) && negb (is_none (ac_api_secret account))
  && negb (is_none (ac_passphrase account)).


(** What holds of [self.clients] at every moment: the names are distinct,
    every account is marked active, and its client carries the name under
    which it is registered. *)
Definition registered (clients : list (string * account_info)) : Prop :=
  Dict.wf clients /\
  Forall (fun entry =>
            ai_active (snd entry) = true /\
            account_name (ai_client (snd entry)) = fst entry) clients.

Lemma keys_set_known {V : Type} (d : list (string * V)) k v :
  In k (Dict.keys d) -> Dict.keys (Dict.set d k v) = Dict.keys d.
Proof.
  induction d as [|[k' v'] d IH]; intros Hk; [contradiction Hk|].
  simpl in *. destruct (String.eqb_spec k k') as [->|Hne]; [reflexivity|].
  simpl. rewrite IH; [reflexivity|]. destruct Hk as [Hk|Hk]; [congruence|exact Hk].
Qed.

Lemma set_wf {V : Type} (d : list (string * V)) k v :
  Dict.wf d -> Dict.wf (Dict.set d k v).
Proof.
  unfold Dict.wf. intros Hnd.
  destruct (in_dec string_dec k (Dict.keys d)) as [Hin|Hout].
  - rewrite keys_set_known by exact Hin. exact Hnd.
  - rewrite keys_set_fresh by exact Hout.
    apply NoDup_app; [exact Hnd|repeat constructor; intros []|].
    intros x Hx [<-|[]]. contradiction.
Qed.

Lemma set_length {V : Type} (d : list (string * V)) k v :
  (List.length d <= List.length (Dict.set d k v) <= S (List.length d))%nat.
Proof.
  induction d as [|[k' v'] d IH]; simpl; [lia|].
  destruct (String.eqb k k'); simpl; lia.
Qed.

Lemma set_entries {V : Type} (P : string * V -> Prop) (d : list (string * V)) k v :
  P (k, v) -> Forall P d -> Forall P (Dict.set d k v).
Proof.
  intros Hv. induction 1 as [|[k' v'] d H0 Hd IH]; simpl.
  - constructor; [exact Hv|constructor].
  - destruct (String.eqb_spec k k') as [->|Hne]; constructor; assumption.
Qed.

Lemma set_registered clients client :
  registered clients ->
  registered (Dict.set clients (account_name client) (mkAccount client true)).
Proof.
  intros [Hwf Hall]. split; [apply set_wf, Hwf|].
  apply set_entries; [split; reflexivity|exact Hall].
Qed.

(** The question that tests the connection. *)
Definition is_connection_test (e : event) : Prop :=
  exists account, e = EvAssets account "SPELL".

(** One round of the loop: the account is left out, or it is registered
    after the one question that tests its connection. *)
Lemma initialize_account_step account rest clients st :
  exists clients' st',
    initialize_accounts (account :: rest) clients st
      = initialize_accounts rest clients' st' /\
    stdin st' = stdin st /\
    (clients' = clients /\ has_credentials account = false /\ trace st' = trace st
     \/
     clients' = clients /\ has_credentials account = true /\
     (trace st' = trace st \/
      exists name, trace st' = EvAssets name "SPELL" :: trace st)
     \/
     has_credentials account = true /\
     exists client,
       clients' = Dict.set clients (account_name client) (mkAccount client true) /\
       trace st' = EvAssets (account_name client) "SPELL" :: trace st).
Proof.
  cbn [initialize_accounts]. unfold bind at 1. unfold try_except at 1. cbv zeta.
  unfold has_credentials.
  destruct (ac_api_key account) as [api_key|];
    [|exists clients, st; split; [reflexivity|]; split; [reflexivity|];
      left; repeat split; reflexivity].
  destruct (ac_api_secret account) as [api_secret|];
    [|exists clients, st; split; [reflexivity|]; split; [reflexivity|];
      left; repeat split; reflexivity].
  destruct (ac_passphrase account) as [passphrase|];
    [|exists clients, st; split; [reflexivity|]; split; [reflexivity|];
      left; repeat split; reflexivity].
  set (name := match ac_name account with
               | Some n => n
               | None => default_account_name clients
               end).
  unfold bind at 1. unfold BitgetClient_init, try_except at 1, bind at 1, call_quietly.
  destruct (pybitget_Client api_key api_secret passphrase (world st)) as [[c|e] w].
  - unfold ret at 1.
    unfold get_account_assets, try_except, bind, call, ret. cbn [client account_name world stdin trace].
    destruct (spot_get_account_assets c "SPELL" w) as [[resp|e] w'].
    + destruct (response_is_empty resp || is_none (r_data resp)) eqn:Hbad.
      * cbn [error_response r_data is_none]. eexists. eexists.
        split; [reflexivity|]. split; [reflexivity|].
        right. left. repeat split. right. eexists. reflexivity.
      * apply orb_false_iff in Hbad as [_ Hdata]. rewrite Hdata.
        eexists. eexists. split; [reflexivity|]. split; [reflexivity|].
        right. right. split; [reflexivity|].
        exists (mkBitgetClient name c). split; reflexivity.
    + cbn [error_response r_data is_none]. eexists. eexists.
      split; [reflexivity|]. split; [reflexivity|].
      right. left. repeat split. right. eexists. reflexivity.
  - unfold raise. eexists. eexists. split; [reflexivity|]. split; [reflexivity|].
    right. left. repeat split. left. reflexivity.
Qed.

Lemma initialize_accounts_spec accounts : forall clients st,
  registered clients ->
  exists clients' st',
    initialize_accounts accounts clients st = (Ok clients', st') /\
    registered clients' /\
    (List.length clients <= List.length clients'
     <= List.length clients + List.length (filter has_credentials accounts))%nat /\
    stdin st' = stdin st /\
    exists evs,
      trace st' = (evs ++ trace st)%list /\
      Forall is_connection_test evs /\
      (List.length evs <= List.length (filter has_credentials accounts))%nat.
Proof.
  induction accounts as [|account rest IH]; intros clients st Hreg.
  - exists clients, st. split; [reflexivity|]. split; [exact Hreg|].
    split; [simpl; lia|]. split; [reflexivity|].
    exists []. split; [reflexivity|]. split; [constructor|simpl; lia].
  - destruct (initialize_account_step account rest clients st)
      as (clients1 & st1 & -> & Hin & Hcase).
    assert (Hreg1 : registered clients1).
    { destruct Hcase as [(-> & _)|[(-> & _)|(_ & client & -> & _)]];
        [exact Hreg|exact Hreg|apply set_registered, Hreg]. }
    destruct (IH clients1 st1 Hreg1)
      as (clients' & st' & E & Hreg' & Hlen & Hin' & evs & Htr & Hall & Hn).
    exists clients', st'. split; [exact E|]. split; [exact Hreg'|].
    cbn [filter].
    destruct Hcase as [(-> & -> & Ht)|[(-> & -> & Ht)|(-> & client & -> & Ht)]].
    + split; [exact Hlen|]. split; [congruence|].
      exists evs. rewrite <- Ht. repeat split; assumption.
    + split; [simpl; lia|]. split; [congruence|].
      destruct Ht as [Ht|(name & Ht)].
      * exists evs. rewrite <- Ht. split; [exact Htr|]. split; [exact Hall|simpl; lia].
      * exists (evs ++ [EvAssets name "SPELL"])%list. rewrite <- app_assoc, Htr, Ht.
        split; [reflexivity|]. split.
        -- apply Forall_app. split; [exact Hall|]. repeat constructor. exists name. reflexivity.
        -- rewrite length_app. simpl. lia.
    + pose proof (set_length clients (account_name client) (mkAccount client true)).
      split; [simpl; lia|]. split; [congruence|].
      exists (evs ++ [EvAssets (account_name client) "SPELL"])%list.
      rewrite <- app_assoc, Htr, Ht. split; [reflexivity|]. split.
      * apply Forall_app. split; [exact Hall|]. repeat constructor. eexists. reflexivity.
      * rewrite length_app. simpl. lia.
Qed.



(** X11. While it starts up, the program puts one question at most to the
    exchange for each configured account that has its three credentials, the
    query of the assets of the coin ["SPELL"] that tests the connection; it
    places no order, cancels nothing and does not read the console. *)
Theorem initialize_clients_only_tests_the_connection
  (accounts : list account_config) (st : state) :
  let st' := snd (initialize_clients accounts st) in
  stdin st' = stdin st /\
  exists evs,
    trace st' = (evs ++ trace st)%list /\
    Forall is_connection_test evs /\
    (List.length evs <= List.length (filter has_credentials accounts))%nat.
Proof.
  cbv zeta.
  assert (Hempty : registered []).
  { split; [constructor|constructor]. }
  destruct (initialize_accounts_spec accounts [] st Hempty)
    as (clients & st' & E & _ & _ & Hin & Hevs).
  unfold initialize_clients, bind. rewrite E.
  destruct clients as [|entry others]; cbn [snd ret]; split; assumption.
Qed.


(** *** The methods of [BitgetClient] *)

(** The answer that a method makes up itself: code [-1] and a message. *)
Definition is_own_error {D : Type} (resp : response D) : Prop :=
  r_code resp = Some (CodeInt (-1)) /\ exists msg, r_msg resp = Some msg.

Lemma own_error_is_failure {D : Type} (resp : response D) :
  is_own_error resp -> code_is_success resp = false.
Proof. intros [H _]. unfold code_is_success. rewrite H. reflexivity. Qed.


End Setup.

(* ================================================================== *)
(** * The command loop of [main] *)
(* ================================================================== *)

Section Commands.
Context {exchange : Exchange}.

Notation "x <- m ;; k" := (bind m (fun x => k))
  (at level 61, m at next level, right associativity).

(** [input("\nEnter command (1-7): ")]: the next line of the console, as it
    is. *)
Definition read_command : M string :=
  fun st =>
    match stdin st with
    | [] => (Raise EOFError, st)
    | line :: rest => (Ok line, mkState (world st) rest (trace st))
    end.

(** The action behind a command. *)
Definition action_of_command (choice : string) : option string :=
  if String.eqb choice "1" then Some "buy_market"
  else if String.eqb choice "2" then Some "buy_limit"
  else if String.eqb choice "3" then Some "sell_market"
  else if String.eqb choice "4" then Some "sell_limit"
  else if String.eqb choice "5" then Some "cancel_buy_limits"
  else if String.eqb choice "6" then Some "cancel_sell_limits"
  else None.

(** The [while True] loop of [main], for [fuel] rounds at most: [Some tt] is
    the [break] of the command ["7"], [None] that the rounds are used up. *)
Fixpoint command_loop (fuel : nat) (trader : MultiAccountTrader) : M (option unit) :=
  match fuel with
  | O => ret None
  | S fuel' =>
      choice <- read_command ;;
      match action_of_command choice with
      | Some action =>
          _ <- trade_all_accounts trader action ;;
          command_loop fuel' trader
      | None =>
          if String.eqb choice "7" then ret (Some tt)
          else command_loop fuel' trader
      end
  end.

(** How [main] ends: it returns, or it leaves through [sys.exit]. *)
Inductive ending : Type :=
| Returns
| Exits (status : Z).

(** [main], once the trader is built: the loop, and [sys.exit(1)] for
    whatever it raises. *)
Definition main_loop (fuel : nat) (trader : MultiAccountTrader) : M (option ending) :=
  try_except
    (r <- command_loop fuel trader ;;
     match r with
     | Some _ => ret (Some Returns)
     | None => ret None
     end)
    (fun _ => ret (Some (Exits 1))).





End Commands.

(* ================================================================== *)
(** * Start-up and commands on the scripted exchange *)
(* ================================================================== *)

Module Coverage.
Import Demo.

(** A library whose constructor takes the API key for the client and
    refuses the empty key. *)
#[export] Instance scripted_library : Library scripted := {
  pybitget_Client := fun api_key _ _ w =>
    (if String.eqb api_key "" then Raise (Fault "invalid key") else Ok api_key, w);
  OrderDetails := unit;
  Transfer := unit;
  spot_get_order_details := fun _ _ w => (ok tt, w);
  spot_account_transfer := fun _ _ w => (ok tt, w);
  spot_account_inner_transfer := fun _ _ w => (ok tt, w)
}.

Definition with_keys (name : option string) (api_key : string) : account_config :=
  mkAccountConfig name (Some api_key) (Some "secret") (Some "phrase").

(** Three configured accounts: the second has no name, the third no
    passphrase. *)
Example scenario_start_up :
  let accounts :=
    [with_keys (Some "a1") "k1"; with_keys None "k2";
     mkAccountConfig (Some "a3") (Some "k3") (Some "secret") None] in
  let '(r, st') := initialize_clients accounts calm in
  r = Ok (Some [("a1", mkAccount (mkBitgetClient "a1" "k1") true);
                ("account_2", mkAccount (mkBitgetClient "account_2" "k2") true)]) /\
  trace st' = [EvAssets "account_2" "SPELL"; EvAssets "a1" "SPELL"].
Proof. vm_compute. split; reflexivity. Qed.

(** The name made up for an account without one can be the name of an
    account that is registered already, which it then replaces. *)
Example scenario_made_up_name_is_taken :
  fst (initialize_clients [with_keys (Some "account_2") "k1"; with_keys None "k2"] calm)
  = Ok (Some [("account_2", mkAccount (mkBitgetClient "account_2" "k2") true)]).
Proof. vm_compute. reflexivity. Qed.

(** No account can be initialised: the program exits. *)
Example scenario_no_account :
  fst (initialize_clients [with_keys (Some "a1") ""] calm) = Ok None.
Proof. vm_compute. reflexivity. Qed.

Lemma batch_result_has_every_active_account_witness :
  ([("a1", ROrder "1001"); ("a3", ROrder "1001")] = [] \/
   Dict.keys [("a1", ROrder "1001"); ("a3", ROrder "1001")]
   = Dict.keys (active_accounts_of trio)) /\
  (forall inputs st0,
      collect_user_inputs trio "buy_market" (active_accounts_of trio) calm
        = (Ok (Some inputs), st0) ->
      Dict.keys [("a1", ROrder "1001"); ("a3", ROrder "1001")]
      = Dict.keys (active_accounts_of trio) /\
      List.length [("a1", ROrder "1001"); ("a3", ROrder "1001")]
      = List.length (active_accounts_of trio)).
Proof.
  apply (batch_result_has_every_active_account (execute_action trio) trio
           "buy_market" calm [("a1", ROrder "1001"); ("a3", ROrder "1001")]
           (snd (trade_all_accounts trio "buy_market" calm))).
  - exact Scenarios.trio_names_differ.
  - vm_compute. reflexivity.
Defined.


Example scenario_commands :
  let '(r, st') :=
    main_loop 4 pair
      (start (market "0.002" (Some "60000") [] true) ["1"; "help"; "7"; "3"]) in
  r = Ok (Some Returns) /\ stdin st' = ["3"] /\
  exists p1 p2, trace st' = [EvSummary 2 2; EvPlace "a2" p2; EvPlace "a1" p1].
Proof. vm_compute. split; [reflexivity|]. split; [reflexivity|]. do 2 eexists. reflexivity. Qed.

End Coverage.
